(** * config-db: the template evaluator and the AWS cost fetcher

    A shallow embedding of
    - [utils/templating/template.go]: [Template], the dispatcher over the
      three rendering engines (goja scripts, text/template, expr);
    - [scrapers/aws/cost.go]: [getProductAttributes] and [FetchCosts].

    Go strings are byte strings ([string]); Go maps are finite maps
    ([gmap]) that live in a store and are handed around by reference; the
    libraries the code calls (goja, text/template, encoding/json, expr,
    database/sql, ...) are collaborators given by an interface. *)

From stdpp Require Import base gmap strings list pretty.
From Stdlib Require Import Ascii BinNat PrimFloat.

Local Open Scope string_scope.
Local Open Scope list_scope.
Local Open Scope nat_scope.

(** ** Byte strings *)

Definition bytes_of_string (s : string) : list N :=
  N_of_ascii <$> String.list_ascii_of_string s.

Definition string_of_bytes (bs : list N) : string :=
  String.string_of_list_ascii (ascii_of_N <$> bs).

(** The line feed, ["\n"]. *)
Definition LF : string := String (ascii_of_nat 10) "".

(** [s[i]]; every use below is in range. *)
Definition byte_at (s : list N) (i : nat) : N := nth i s 0%N.

(** ** unicode/utf8 *)
Module utf8.

Definition RuneError : N := 0xFFFD.
Definition RuneSelf : N := 0x80.
Definition UTFMax : nat := 4.

(** The entries of the table [first]: what a first byte announces. *)
Inductive firstInfo :=
| as_                                  (* ASCII: the byte is the rune *)
| xx                                   (* invalid first byte *)
| lead (sz : nat) (lo hi : N).         (* size and accept range of byte 2 *)

Definition locb : N := 0x80.
Definition hicb : N := 0xBF.

Definition first (b : N) : firstInfo :=
  if (b <? 0x80)%N then as_
  else if (b <? 0xC2)%N then xx
  else if (b <? 0xE0)%N then lead 2 locb hicb
  else if (b =? 0xE0)%N then lead 3 0xA0 hicb
  else if (b <? 0xED)%N then lead 3 locb hicb
  else if (b =? 0xED)%N then lead 3 locb 0x9F
  else if (b <? 0xF0)%N then lead 3 locb hicb
  else if (b =? 0xF0)%N then lead 4 0x90 hicb
  else if (b <? 0xF4)%N then lead 4 locb hicb
  else if (b =? 0xF4)%N then lead 4 locb 0x8F
  else xx.

Definition maskx : N := 0x3F.
Definition mask2 : N := 0x1F.
Definition mask3 : N := 0x0F.
Definition mask4 : N := 0x07.

Definition DecodeRuneInString (s : list N) : N * nat :=
  match s with
  | [] => (RuneError, 0)
  | s0 :: _ =>
    match first s0 with
    | as_ => (s0, 1)
    | xx => (RuneError, 1)
    | lead sz lo hi =>
      if length s <? sz then (RuneError, 1) else
      let s1 := byte_at s 1 in
      if ((s1 <? lo) || (hi <? s1))%N then (RuneError, 1) else
      if sz <=? 2 then
        (N.lor (N.shiftl (N.land s0 mask2) 6) (N.land s1 maskx), 2)
      else
      let s2 := byte_at s 2 in
      if ((s2 <? locb) || (hicb <? s2))%N then (RuneError, 1) else
      if sz <=? 3 then
        (N.lor (N.lor (N.shiftl (N.land s0 mask3) 12)
                      (N.shiftl (N.land s1 maskx) 6))
               (N.land s2 maskx), 3)
      else
      let s3 := byte_at s 3 in
      if ((s3 <? locb) || (hicb <? s3))%N then (RuneError, 1) else
      (N.lor (N.lor (N.lor (N.shiftl (N.land s0 mask4) 18)
                           (N.shiftl (N.land s1 maskx) 12))
                    (N.shiftl (N.land s2 maskx) 6))
             (N.land s3 maskx), 4)
    end
  end.

(** [b&0xC0 != 0x80] *)
Definition RuneStart (b : N) : bool :=
  negb (N.land b 0xC0 =? 0x80)%N.

(** [for start--; start >= lim; start-- { if RuneStart(s[start]) { break } }],
    entered with [start] already decremented. *)
Fixpoint back_to_start (fuel : nat) (s : list N) (start lim : Z) : Z :=
  match fuel with
  | O => start
  | S fuel' =>
    if (start <? lim)%Z then start
    else if RuneStart (byte_at s (Z.to_nat start)) then start
    else back_to_start fuel' s (start - 1)%Z lim
  end.

Definition DecodeLastRuneInString (s : list N) : N * nat :=
  let end_ := length s in
  if end_ =? 0 then (RuneError, 0) else
  let start := end_ - 1 in
  let r := byte_at s start in
  if (r <? RuneSelf)%N then (r, 1) else
  let lim := Z.max 0 (Z.of_nat end_ - Z.of_nat UTFMax) in
  let start := back_to_start (S UTFMax) s (Z.of_nat start - 1) lim in
  let start := Z.to_nat (Z.max 0 start) in
  let '(r, size) := DecodeRuneInString (drop start s) in
  if negb (start + size =? end_) then (RuneError, 1) else (r, size).

End utf8.

(** ** unicode *)
Module unicode.

Definition MaxLatin1 : N := 0xFF.

(** The ranges of the table [White_Space] above Latin-1. *)
Definition White_Space_excludingLatin (r : N) : bool :=
  ((r =? 0x1680) || ((0x2000 <=? r) && (r <=? 0x200A))
   || ((0x2028 <=? r) && (r <=? 0x2029)) || (r =? 0x202F)
   || (r =? 0x205F) || (r =? 0x3000))%N.

Definition IsSpace (r : N) : bool :=
  if (r <=? MaxLatin1)%N then
    ((r =? 9) || (r =? 10) || (r =? 11) || (r =? 12) || (r =? 13)
     || (r =? 32) || (r =? 0x85) || (r =? 0xA0))%N
  else White_Space_excludingLatin r.

End unicode.

(** ** strings *)
Module strings.

(** [asciiSpace[c] == 1] *)
Definition asciiSpace (c : N) : bool :=
  ((c =? 9) || (c =? 10) || (c =? 11) || (c =? 12) || (c =? 13)
   || (c =? 32))%N.

(** [for i, r := range s { if f(r) == truth { return i } }; return -1],
    as the suffix [s[i:]] when an index is found. *)
Fixpoint indexFunc (fuel : nat) (s : list N) (f : N -> bool) (truth : bool)
  : option (list N) :=
  match fuel with
  | O => None
  | S fuel' =>
    match s with
    | [] => None
    | _ =>
      let '(r, size) := utf8.DecodeRuneInString s in
      if Bool.eqb (f r) truth then Some s
      else indexFunc fuel' (drop size s) f truth
    end
  end.

Definition TrimLeftFunc (s : list N) (f : N -> bool) : list N :=
  match indexFunc (length s) s f false with
  | None => []
  | Some rest => rest
  end.

(** [for i := len(s); i > 0; { r, size := DecodeLastRuneInString(s[0:i]);
    i -= size; if f(r) == truth { return i } }; return -1] *)
Fixpoint lastIndexFunc (fuel : nat) (s : list N) (i : nat) (f : N -> bool)
    (truth : bool) : option nat :=
  match fuel with
  | O => None
  | S fuel' =>
    if i =? 0 then None else
    let '(r, size) := utf8.DecodeLastRuneInString (take i s) in
    let i := i - size in
    if Bool.eqb (f r) truth then Some i
    else lastIndexFunc fuel' s i f truth
  end.

Definition TrimRightFunc (s : list N) (f : N -> bool) : list N :=
  match lastIndexFunc (length s) s (length s) f false with
  | Some i =>
    if (utf8.RuneSelf <=? byte_at s i)%N then
      let '(_, wid) := utf8.DecodeRuneInString (drop i s) in
      take (i + wid) s
    else take (i + 1) s
  | None => take 0 s
  end.

Definition TrimFunc (s : list N) (f : N -> bool) : list N :=
  TrimRightFunc (TrimLeftFunc s f) f.

(** The second loop of [TrimSpace], over [s = s[start:]], with [stop]
    counting down from [len(s)]. *)
Fixpoint TrimSpace_stop (s : list N) (stop : nat) : list N :=
  match stop with
  | O => take 0 s
  | S stop' =>
    let c := byte_at s stop' in
    if (utf8.RuneSelf <=? c)%N then TrimRightFunc (take stop s) unicode.IsSpace
    else if asciiSpace c then TrimSpace_stop s stop'
    else take stop s
  end.

(** The first loop of [TrimSpace]: [s] is [s[start:]]. *)
Fixpoint TrimSpace_start (s : list N) : list N :=
  match s with
  | [] => TrimSpace_stop s (length s)
  | c :: rest =>
    if (utf8.RuneSelf <=? c)%N then TrimFunc s unicode.IsSpace
    else if asciiSpace c then TrimSpace_start rest
    else TrimSpace_stop s (length s)
  end.

Definition TrimSpace (s : string) : string :=
  string_of_bytes (TrimSpace_start (bytes_of_string s)).

(** [HasPrefix(s, prefix)], and [s] without the prefix. *)
Fixpoint CutPrefix (s prefix : list N) : option (list N) :=
  match prefix, s with
  | [], _ => Some s
  | p :: prefix', c :: s' => if (p =? c)%N then CutPrefix s' prefix' else None
  | _ :: _, [] => None
  end.

(** [Split(s, sep)] for a separator that is not empty: the pieces of [s]
    between the occurrences of [sep], found from the left. [cur] holds
    the bytes of the current piece, reversed. *)
Fixpoint Split_go (fuel : nat) (s sep cur : list N) : list (list N) :=
  match fuel with
  | O => [rev cur ++ s]
  | S fuel' =>
    match CutPrefix s sep with
    | Some rest => rev cur :: Split_go fuel' rest sep []
    | None =>
      match s with
      | [] => [rev cur]
      | c :: s' => Split_go fuel' s' sep (c :: cur)
      end
    end
  end.

Definition Split (s sep : string) : list string :=
  string_of_bytes <$>
    Split_go (S (String.length s)) (bytes_of_string s) (bytes_of_string sep) [].

(** [ReplaceAll(s, old, new)] for [old] not empty. *)
Fixpoint ReplaceAll_go (fuel : nat) (s old new : list N) : list N :=
  match fuel with
  | O => s
  | S fuel' =>
    match CutPrefix s old with
    | Some rest => new ++ ReplaceAll_go fuel' rest old new
    | None =>
      match s with
      | [] => []
      | c :: s' => c :: ReplaceAll_go fuel' s' old new
      end
    end
  end.

Definition ReplaceAll (s old new : string) : string :=
  string_of_bytes
    (ReplaceAll_go (S (String.length s)) (bytes_of_string s)
       (bytes_of_string old) (bytes_of_string new)).

End strings.


(** ** api/v1: the template specification *)
Module v1.

(** [v1.Template]: the three body fields [Template] reads. The field
    [Template] of the Go struct is [Template_] here. *)
Record Template : Type := mkTemplate {
  Javascript : string;
  Template_ : string;
  Expression : string
}.

End v1.

(** ** Go errors and panics *)

(** An [error] value: one made by a library, one wrapped by
    [errors.Wrapf] (github.com/pkg/errors), one made by [fmt.Errorf]
    without [%w]. *)
Inductive error : Type :=
| errors_New (msg : string)
| errors_Wrapf (cause : error) (msg : string)
| fmt_Errorf (msg : string).

(** [err.Error()] *)
Fixpoint Error (e : error) : string :=
  match e with
  | errors_New msg => msg
  | errors_Wrapf cause msg => msg +:+ ": " +:+ Error cause
  | fmt_Errorf msg => msg
  end.

(** How a Go call ends: it returns, or it panics. *)
Inductive outcome (A : Type) : Type :=
| Returned (a : A)
| Panicked (reason : string).
Arguments Returned {A} a.
Arguments Panicked {A} reason.

(** ** utils/templating *)
Module templating.

(** The calls [Template] makes into the engines, in the order made. *)
Inductive Call : Type :=
| call_goja_New
| call_Runtime_Set (k : string)
| call_Runtime_RunString (src : string)
| call_Template_Parse (text : string)
| call_json_Marshal
| call_json_Unmarshal (data : string)
| call_Template_Execute
| call_MakeExpressionOptions
| call_expr_Compile (input : string)
| call_MakeExpressionEnvs
| call_expr_Run.

(** The libraries [Template] calls. Every call that can reach the heap is
    a function of the store and returns the store it leaves. *)
Class Host : Type := {
  (** Go values ([interface{}]) and the type assertion [v.(string)] *)
  Value : Type;
  string_of_Value : Value -> option string;
  fmt_Sprint : Value -> string;
  (** the store, and a [map[string]interface{}] in it: its entries, and
      the order in which a [range] loop started now visits them *)
  Store : Type;
  Map : Type;
  contents : Store -> Map -> gmap string Value;
  range : Store -> Map -> list (string * Value);
  (** github.com/dop251/goja; [ExportType] returns a [reflect.Type], an
      interface value, and [None] is the nil one: the type goja gives for
      null and undefined is [reflect.TypeOf(nil)] *)
  Runtime : Type;
  JSValue : Type;
  reflect_Type : Type;
  goja_New : Store -> Runtime * Store;
  Runtime_Set : Runtime -> string -> Value -> Store -> option error * Store;
  Runtime_RunString : Runtime -> string -> Store -> (JSValue + error) * Store;
  Value_Export : JSValue -> Value;
  Value_ExportType : JSValue -> option reflect_Type;
  Type_Name : reflect_Type -> string;
  (** text/template and the function library of flanksource/commons *)
  FuncMap : Type;
  Tmpl : Type;
  text_GetTemplateFuncs : FuncMap;
  Template_Parse : FuncMap -> string -> Store -> (Tmpl + error) * Store;
  Template_Execute :
    Tmpl -> gmap string Value -> Store -> (string * option error) * Store;
  (** encoding/json; [Unmarshal] is given the map it decodes into *)
  json_Marshal : Map -> Store -> (string * option error) * Store;
  json_Unmarshal :
    string -> gmap string Value -> Store ->
    (gmap string Value * option error) * Store;
  (** github.com/antonmedv/expr and its helpers of flanksource/commons *)
  Options : Type;
  Envs : Type;
  Program : Type;
  text_MakeExpressionOptions : Map -> Store -> Options * Store;
  text_MakeExpressionEnvs : Map -> Store -> Envs * Store;
  expr_Compile : string -> Options -> Store -> (Program + error) * Store;
  expr_Run : Program -> Envs -> Store -> (Value + error) * Store
}.

Section Monad.
Context `{H : Host}.

(** A computation over the store that records the calls it makes. *)
Definition M (A : Type) : Type := Store -> outcome A * Store * list Call.

Definition ret {A} (a : A) : M A := fun s => (Returned a, s, []).

Definition bind {A B} (m : M A) (f : A -> M B) : M B :=
  fun s =>
    match m s with
    | (Returned a, s1, c1) =>
      match f a s1 with
      | (o, s2, c2) => (o, s2, c1 ++ c2)
      end
    | (Panicked reason, s1, c1) => (Panicked reason, s1, c1)
    end.

Definition panic {A} (reason : string) : M A :=
  fun s => (Panicked reason, s, []).

(** A library call, recorded. *)
Definition call {A} (c : Call) (op : Store -> A * Store) : M A :=
  fun s => match op s with (a, s') => (Returned a, s', [c]) end.

(** Reading the store. *)
Definition gets {A} (f : Store -> A) : M A := fun s => (Returned (f s), s, []).

End Monad.

Notation "x <- m ;; k" := (bind m (fun x => k))
  (at level 100, m at next level, right associativity,
   format "'[v' x  <-  m  ;;  '/' k ']'").

Section Template.
Context `{H : Host}.

(** [for k, v := range environment { if err := vm.Set(k, v); err != nil
    { return "", errors.Wrapf(err, "error setting %s", k) } }]: the error
    of the early return, if the loop is left by it. *)
Fixpoint Set_each (vm : Runtime) (kvs : list (string * Value))
  : M (option error) :=
  match kvs with
  | [] => ret None
  | (k, v) :: kvs' =>
    err <- call (call_Runtime_Set k) (Runtime_Set vm k v) ;;
    match err with
    | Some err => ret (Some (errors_Wrapf err ("error setting " +:+ k)))
    | None => Set_each vm kvs'
    end
  end.

(** The runtime panic of a method call on a nil interface value. *)
Definition nil_dereference : string :=
  "runtime error: invalid memory address or nil pointer dereference".

Definition Template (environment : Map) (template : v1.Template)
  : M (string * option error) :=
  (* javascript *)
  if bool_decide (v1.Javascript template ≠ "") then
    vm <- call call_goja_New goja_New ;;
    kvs <- gets (fun s => range s environment) ;;
    early <- Set_each vm kvs ;;
    match early with
    | Some err => ret ("", Some err)
    | None =>
      r <- call (call_Runtime_RunString (v1.Javascript template))
             (Runtime_RunString vm (v1.Javascript template)) ;;
      match r with
      | inr err => ret ("", Some (errors_Wrapf err "failed to run javascript"))
      | inl vmOut =>
        match string_of_Value (Value_Export vmOut) with
        | None =>
          match Value_ExportType vmOut with
          | None => panic nil_dereference
          | Some ty =>
            ret ("", Some (fmt_Errorf
              ("failed to cast output to string; it is of type "
               +:+ Type_Name ty)))
          end
        | Some s => ret (s, None)
        end
      end
    end
  (* gotemplate *)
  else if bool_decide (v1.Template_ template ≠ "") then
    r <- call (call_Template_Parse (v1.Template_ template))
           (Template_Parse text_GetTemplateFuncs (v1.Template_ template)) ;;
    match r with
    | inr err => ret ("", Some err)
    | inl tpl =>
      (* marshal data from interface{} to map[string]interface{} *)
      m <- call call_json_Marshal (json_Marshal environment) ;;
      let data := fst m in
      u <- call (call_json_Unmarshal data) (json_Unmarshal data ∅) ;;
      match u with
      | (_, Some err) => ret ("", Some err)
      | (unstructured, None) =>
        e <- call call_Template_Execute (Template_Execute tpl unstructured) ;;
        match e with
        | (_, Some err) =>
          ret ("", Some (fmt_Errorf
            ("error executing template "
             +:+ hd "" (strings.Split (v1.Template_ template) LF)
             +:+ ": " +:+ Error err)))
        | (buf, None) => ret (strings.TrimSpace buf, None)
        end
      end
    end
  (* exprv *)
  else if bool_decide (v1.Expression template ≠ "") then
    opts <- call call_MakeExpressionOptions
              (text_MakeExpressionOptions environment) ;;
    p <- call (call_expr_Compile (v1.Expression template))
           (expr_Compile (v1.Expression template) opts) ;;
    match p with
    | inr err => ret ("", Some err)
    | inl program =>
      envs <- call call_MakeExpressionEnvs
                (text_MakeExpressionEnvs environment) ;;
      o <- call call_expr_Run (expr_Run program envs) ;;
      match o with
      | inr err => ret ("", Some err)
      | inl output => ret (fmt_Sprint output, None)
      end
    end
  else ret ("", None).

End Template.

End templating.


(** ** A small host

    An executable instance of [Host], small enough to run [Template] on
    concrete inputs: Go values without nesting, a script language of
    literals and global names, templates of text and [{{.field}}] actions,
    JSON objects of scalars, expressions that are sums of names and
    integers. It stands for the real libraries only on that fragment. *)
Module mini.
Import templating.

Inductive value : Type :=
| VNil
| VBool (b : bool)
| VInt (n : Z)                    (* int64 *)
| VString (s : string)
| VObject                         (* an empty map[string]interface{} *)
| VChan                           (* a channel: no JSON form, not bound *)
| VFunc.                          (* a func(float64) string: no JSON form *)

(** The types [reflect.TypeOf] gives these values. *)
Inductive rtype : Type := TBool | TInt64 | TString | TMap | TChan | TFunc.

(** [Type.Name()]: the name of a defined type, empty for the others. *)
Definition Name (t : rtype) : string :=
  match t with
  | TBool => "bool"
  | TInt64 => "int64"
  | TString => "string"
  | TMap => ""
  | TChan => ""
  | TFunc => ""
  end.

Definition string_of (v : value) : option string :=
  match v with VString s => Some s | _ => None end.

(** The dynamic type of a value as the runtime and the libraries print
    it, [nil] for the nil interface value. *)
Definition go_type (v : value) : string :=
  match v with
  | VNil => "nil"
  | VBool _ => "bool"
  | VInt _ => "int64"
  | VString _ => "string"
  | VObject => "map[string]interface {}"
  | VChan => "chan int"
  | VFunc => "func(float64) string"
  end.

(** [fmt.Sprint] of one operand. *)
Definition Sprint (v : value) : string :=
  match v with
  | VNil => "<nil>"
  | VBool true => "true"
  | VBool false => "false"
  | VInt n => pretty n
  | VString s => s
  | VObject => "map[]"
  | VChan => "0xc000010000"
  | VFunc => "0x4f2a40"
  end.

(** The store: the caller's map and the globals of the one runtime. *)
Record store : Type := mkStore {
  env : gmap string value;
  globals : gmap string value
}.

Definition quote : ascii := ascii_of_nat 34.
Definition backslash : ascii := ascii_of_nat 92.

Definition is_digit (c : ascii) : bool :=
  (48 <=? nat_of_ascii c) && (nat_of_ascii c <=? 57).

Definition is_ident_char (c : ascii) : bool :=
  let n := nat_of_ascii c in
  ((97 <=? n) && (n <=? 122)) || ((65 <=? n) && (n <=? 90))
  || (n =? 95) || is_digit c.

Definition is_ident (cs : list ascii) : bool :=
  match cs with
  | [] => false
  | c :: _ => negb (is_digit c) && forallb is_ident_char cs
  end.

(** The number a run of decimal digits writes. *)
Definition digits_value (cs : list ascii) : Z :=
  fold_left (fun acc c => (10 * acc + Z.of_nat (nat_of_ascii c - 48))%Z) cs 0%Z.

Definition is_number (cs : list ascii) : bool :=
  match cs with [] => false | _ => forallb is_digit cs end.

(** The digits [cs] starts with. *)
Fixpoint leading_digits (cs : list ascii) : list ascii :=
  match cs with
  | c :: cs' => if is_digit c then c :: leading_digits cs' else []
  | [] => []
  end.

(** *** Scripts *)

Inductive jsvalue : Type :=
| JUndefined | JNull | JBool (b : bool) | JInt (n : Z) | JString (s : string)
| JObject | JHost | JFunc.

(** [ToValue]: a Go value seen from a script. *)
Definition ToValue (v : value) : jsvalue :=
  match v with
  | VNil => JNull
  | VBool b => JBool b
  | VInt n => JInt n
  | VString s => JString s
  | VObject => JObject
  | VChan => JHost
  | VFunc => JFunc
  end.

Definition Export (j : jsvalue) : value :=
  match j with
  | JUndefined | JNull => VNil
  | JBool b => VBool b
  | JInt n => VInt n
  | JString s => VString s
  | JObject => VObject
  | JHost => VChan
  | JFunc => VFunc
  end.

(** [ExportType]: [reflect.TypeOf(nil)], the nil type, for null and
    undefined. *)
Definition ExportType (j : jsvalue) : option rtype :=
  match j with
  | JUndefined | JNull => None
  | JBool _ => Some TBool
  | JInt _ => Some TInt64
  | JString _ => Some TString
  | JObject => Some TMap
  | JHost => Some TChan
  | JFunc => Some TFunc
  end.

Definition New (s : store) : unit * store :=
  (tt, {| env := env s; globals := ∅ |}).

Definition Set_ (vm : unit) (k : string) (v : value) (s : store)
  : option error * store :=
  match v with
  | VChan => (Some (errors_New "TypeError: value cannot be bound"), s)
  | _ => (None, {| env := env s; globals := <[k:=v]> (globals s) |})
  end.

(** A script is one literal or one global name; its value is the
    completion value. *)
Definition RunString (vm : unit) (src : string) (s : store)
  : (jsvalue + error) * store :=
  let cs := String.list_ascii_of_string src in
  if String.eqb src "null" then (inl JNull, s)
  else if String.eqb src "undefined" then (inl JUndefined, s)
  else if String.eqb src "true" then (inl (JBool true), s)
  else if String.eqb src "false" then (inl (JBool false), s)
  else if String.eqb src "({})" then (inl JObject, s)
  else if is_number cs then (inl (JInt (digits_value cs)), s)
  else if is_ident cs then
    match globals s !! src with
    | Some v => (inl (ToValue v), s)
    | None =>
      (inr (errors_New ("ReferenceError: " +:+ src +:+ " is not defined")), s)
    end
  else (inr (errors_New "SyntaxError: unexpected token"), s).

(** *** JSON *)

Fixpoint escape (cs : list ascii) : list ascii :=
  match cs with
  | [] => []
  | c :: cs' =>
    if Ascii.eqb c quote || Ascii.eqb c backslash
    then backslash :: c :: escape cs'
    else c :: escape cs'
  end.

Definition json_string (s : string) : string :=
  String quote
    (String.string_of_list_ascii (escape (String.list_ascii_of_string s))
     +:+ String quote "").

Definition json_of_value (v : value) : option string :=
  match v with
  | VNil => Some "null"
  | VBool true => Some "true"
  | VBool false => Some "false"
  | VInt n => Some (pretty n)
  | VString s => Some (json_string s)
  | VObject => Some "{}"
  | VChan => None
  | VFunc => None
  end.

Fixpoint json_of_entries (kvs : list (string * value)) : option (list string) :=
  match kvs with
  | [] => Some []
  | (k, v) :: kvs' =>
    match json_of_value v, json_of_entries kvs' with
    | Some j, Some js => Some ((json_string k +:+ ":" +:+ j) :: js)
    | _, _ => None
    end
  end.

Fixpoint join (sep : string) (l : list string) : string :=
  match l with
  | [] => ""
  | [x] => x
  | x :: l' => x +:+ sep +:+ join sep l'
  end.

(** The first value without a JSON form. *)
Definition unsupported (kvs : list (string * value)) : option value :=
  snd <$> find (fun kv => bool_decide (json_of_value kv.2 = None)) kvs.

(** [Marshal]: the bytes and a nil error, or nil bytes and the error. *)
Definition Marshal (m : unit) (s : store) : (string * option error) * store :=
  match json_of_entries (map_to_list (env s)) with
  | Some js => (("{" +:+ join "," js +:+ "}", None), s)
  | None =>
    (("", Some (errors_New
        ("json: unsupported type: "
         +:+ from_option go_type "" (unsupported (map_to_list (env s)))))), s)
  end.

(** After an opening quote: the string up to the closing one. *)
Fixpoint string_body (cs acc : list ascii) : option (string * list ascii) :=
  match cs with
  | [] => None
  | c :: cs' =>
    if Ascii.eqb c quote then Some (String.string_of_list_ascii (rev acc), cs')
    else if Ascii.eqb c backslash then
      match cs' with
      | d :: cs'' => string_body cs'' (d :: acc)
      | [] => None
      end
    else string_body cs' (c :: acc)
  end.

Definition scalar (cs : list ascii) : option (value * list ascii) :=
  match cs with
  | "n" :: "u" :: "l" :: "l" :: rest => Some (VNil, rest)
  | "t" :: "r" :: "u" :: "e" :: rest => Some (VBool true, rest)
  | "f" :: "a" :: "l" :: "s" :: "e" :: rest => Some (VBool false, rest)
  | "{" :: "}" :: rest => Some (VObject, rest)
  | c :: rest =>
    if Ascii.eqb c quote then
      match string_body rest [] with
      | Some (s, rest') => Some (VString s, rest')
      | None => None
      end
    else if Ascii.eqb c "-" then
      let ds := leading_digits rest in
      if is_number ds
      then Some (VInt (- digits_value ds), drop (length ds) rest)
      else None
    else
      let ds := leading_digits cs in
      if is_number ds
      then Some (VInt (digits_value ds), drop (length ds) cs)
      else None
  | [] => None
  end%char.

(** The members of an object, after its opening brace or a comma. *)
Fixpoint members (fuel : nat) (cs : list ascii) (m : gmap string value)
  : option (gmap string value) :=
  match fuel with
  | O => None
  | S fuel' =>
    match cs with
    | c :: cs1 =>
      if Ascii.eqb c quote then
        match string_body cs1 [] with
        | Some (k, ":" :: cs2) =>
          match scalar cs2 with
          | Some (v, "," :: cs3) => members fuel' cs3 (<[k:=v]> m)
          | Some (v, ["}"]) => Some (<[k:=v]> m)
          | _ => None
          end
        | _ => None
        end
      else None
    | [] => None
    end
  end%char.

Definition Unmarshal (data : string) (into : gmap string value) (s : store)
  : (gmap string value * option error) * store :=
  if String.eqb data "" then
    ((into, Some (errors_New "unexpected end of JSON input")), s)
  else if String.eqb data "null" || String.eqb data "{}" then
    ((into, None), s)
  else
    match String.list_ascii_of_string data with
    | "{"%char :: cs =>
      match members (length cs) cs into with
      | Some m => ((m, None), s)
      | None => ((into, Some (errors_New "invalid character in object")), s)
      end
    | _ => ((into, Some (errors_New
              "json: cannot unmarshal into Go value of type map[string]interface {}")), s)
    end.

(** *** Text templates *)

Inductive node : Type :=
| Text (s : string)
| Field (name : string).

(** After [{{]: the action up to [}}]. *)
Fixpoint action_body (cs acc : list ascii)
  : option (list ascii * list ascii) :=
  match cs with
  | "}" :: "}" :: rest => Some (rev acc, rest)
  | c :: cs' => action_body cs' (c :: acc)
  | [] => None
  end%char.

Definition field_of_action (cs : list ascii) : option string :=
  let cs := String.list_ascii_of_string
              (strings.TrimSpace (String.string_of_list_ascii cs)) in
  match cs with
  | "."%char :: name =>
    if is_ident name then Some (String.string_of_list_ascii name) else None
  | _ => None
  end.

Fixpoint parse_nodes (fuel : nat) (cs acc : list ascii) : list node + error :=
  match fuel with
  | O => inr (errors_New "template: out of fuel")
  | S fuel' =>
    match cs with
    | "{" :: "{" :: rest =>
      match action_body rest [] with
      | None => inr (errors_New "template: :1: unclosed action")
      | Some (inner, rest') =>
        match field_of_action inner with
        | None => inr (errors_New "template: :1: unexpected action")
        | Some f =>
          match parse_nodes fuel' rest' [] with
          | inl ns =>
            inl (Text (String.string_of_list_ascii (rev acc)) :: Field f :: ns)
          | inr e => inr e
          end
        end
      end
    | c :: cs' => parse_nodes fuel' cs' (c :: acc)
    | [] => inl [Text (String.string_of_list_ascii (rev acc))]
    end
  end%char.

Definition Parse (funcs : unit) (text : string) (s : store)
  : (list node + error) * store :=
  let cs := String.list_ascii_of_string text in
  (parse_nodes (S (length cs)) cs [], s).

(** [Execute]: the buffer as far as written, and the error that stopped
    it. A field of a channel cannot be printed. *)
Fixpoint execute (ns : list node) (data : gmap string value) (buf : string)
  : string * option error :=
  match ns with
  | [] => (buf, None)
  | Text t :: ns' => execute ns' data (buf +:+ t)
  | Field f :: ns' =>
    match data !! f with
    | Some VChan =>
      (buf, Some (errors_New ("template: :1: can't print chan in ." +:+ f)))
    | Some VFunc =>
      (buf, Some (errors_New ("template: :1: can't print func in ." +:+ f)))
    | Some v => execute ns' data (buf +:+ Sprint v)
    | None => execute ns' data (buf +:+ "<no value>")
    end
  end.

Definition Execute (ns : list node) (data : gmap string value) (s : store)
  : (string * option error) * store :=
  (execute ns data "", s).

(** *** Expressions *)

Inductive atom : Type := AVar (x : string) | AInt (n : Z).

Definition atom_of (t : string) : option atom :=
  let cs := String.list_ascii_of_string t in
  if is_number cs then Some (AInt (digits_value cs))
  else if is_ident cs then Some (AVar t)
  else None.

Fixpoint atoms_of (ts : list string) : option (list atom) :=
  match ts with
  | [] => Some []
  | t :: ts' =>
    match atom_of t, atoms_of ts' with
    | Some a, Some l => Some (a :: l)
    | _, _ => None
    end
  end.

(** A program is a sum of atoms, or one atom. *)
Definition Compile (input : string) (opts : unit) (s : store)
  : (list atom + error) * store :=
  match atoms_of (strings.Split input " + ") with
  | Some l => (inl l, s)
  | None => (inr (errors_New "unexpected token (1:1)"), s)
  end.

Definition eval_atom (envs : gmap string value) (a : atom) : value + error :=
  match a with
  | AInt n => inl (VInt n)
  | AVar x =>
    match envs !! x with
    | Some v => inl v
    | None => inr (errors_New ("undefined: " +:+ x))
    end
  end.

Fixpoint eval_sum (envs : gmap string value) (l : list atom) (acc : Z)
  : value + error :=
  match l with
  | [] => inl (VInt acc)
  | a :: l' =>
    match eval_atom envs a with
    | inl (VInt n) => eval_sum envs l' (acc + n)%Z
    | inl _ => inr (errors_New "invalid operation: + (mismatched types)")
    | inr e => inr e
    end
  end.

Definition Run (p : list atom) (envs : gmap string value) (s : store)
  : (value + error) * store :=
  match p with
  | [a] => (eval_atom envs a, s)
  | _ => (eval_sum envs p 0, s)
  end.

(** *** The helpers of flanksource/commons *)

(** The function library [text.GetTemplateFuncs()], of which the small
    host has one function. *)
Definition funcs : gmap string value := {[ "ftoa" := VFunc ]}.

(** [for k, v := range funcs { envs[k] = v }; return envs]: the functions
    are stored in the map the caller handed over, which is returned. *)
Definition MakeExpressionEnvs (m : unit) (s : store)
  : gmap string value * store :=
  let envs := funcs ∪ env s in
  (envs, {| env := envs; globals := globals s |}).

(** The options name the same map, with the functions stored in it. *)
Definition MakeExpressionOptions (m : unit) (s : store) : unit * store :=
  (tt, (MakeExpressionEnvs m s).2).

#[export] Instance host : Host := {|
  Value := value;
  string_of_Value := string_of;
  fmt_Sprint := Sprint;
  Store := store;
  Map := unit;
  contents := fun s _ => env s;
  range := fun s _ => map_to_list (env s);
  Runtime := unit;
  JSValue := jsvalue;
  reflect_Type := rtype;
  goja_New := New;
  Runtime_Set := Set_;
  Runtime_RunString := RunString;
  Value_Export := Export;
  Value_ExportType := ExportType;
  Type_Name := Name;
  FuncMap := unit;
  Tmpl := list node;
  text_GetTemplateFuncs := tt;
  Template_Parse := Parse;
  Template_Execute := Execute;
  json_Marshal := Marshal;
  json_Unmarshal := Unmarshal;
  Options := unit;
  Envs := gmap string value;
  Program := list atom;
  text_MakeExpressionOptions := MakeExpressionOptions;
  text_MakeExpressionEnvs := MakeExpressionEnvs;
  expr_Compile := Compile;
  expr_Run := Run
|}.

(** A store whose map is [m], before any runtime exists. *)
Definition store_of (m : gmap string value) : store :=
  {| env := m; globals := ∅ |}.

(** The environment [{"name": "Ann"}]. *)
Definition ann : gmap string value := {[ "name" := VString "Ann" ]}.

(** An environment with a value that has no JSON form and cannot be bound. *)
Definition with_chan : gmap string value :=
  {[ "name" := VString "Ann"; "c" := VChan ]}.

(** The environment [{"a": 2, "b": 3}]. *)
Definition ab : gmap string value := {[ "a" := VInt 2; "b" := VInt 3 ]}.

End mini.


(** ** db/models and the AWS part of api/v1, as far as cost.go reads them *)
Module models.

(** [models.ConfigItem]: pointer fields are [option]s, [None] the nil
    pointer. *)
Record ConfigItem : Type := mkConfigItem {
  ID : string;
  ExternalType : option string;
  Name : option string;
  Config : option string;
  Region : option string;
  Account : option string;
  ExternalID : list string
}.

End models.

Module v1aws.

Record CostReporting : Type := mkCostReporting {
  S3BucketPath : string;
  Table : string;
  Database : string;
  Region : string
}.

(** [v1.AWS], with the connection type left open. *)
Record AWS (AWSConnection : Type) : Type := mkAWS {
  Connection : option AWSConnection;       (* *AWSConnection *)
  Reporting : CostReporting
}.
Arguments Connection {AWSConnection} _.
Arguments Reporting {AWSConnection} _.

End v1aws.

(** ** scrapers/aws: cost.go *)
Module aws.

Definition costQueryTemplate : string := "
    WITH
        max_end_date AS (
            SELECT MAX(line_item_usage_end_date) as end_date FROM $table
            WHERE line_item_resource_id = @id AND line_item_product_code = @product_code
        ),
        results AS (
            SELECT line_item_unblended_cost, line_item_usage_start_date FROM $table
            WHERE line_item_resource_id = @id AND line_item_product_code = @product_code
        )
    SELECT
        SUM(CASE WHEN line_item_usage_start_date >= (SELECT date_add('hour', -1, end_date) FROM max_end_date) THEN line_item_unblended_cost
            ELSE 0 END) as hourly,
        SUM(CASE WHEN line_item_usage_start_date >= (SELECT date_add('day', -1, end_date) FROM max_end_date) THEN line_item_unblended_cost
            ELSE 0 END) as daily,
        SUM(CASE WHEN line_item_usage_start_date >= (SELECT date_add('day', -7, end_date) FROM max_end_date) THEN line_item_unblended_cost
            ELSE 0 END) as weekly,
        SUM(CASE WHEN line_item_usage_start_date >= (SELECT date_add('day', -30, end_date) FROM max_end_date) THEN line_item_unblended_cost
            ELSE 0 END) as monthly
    FROM results
".

Record productAttributes : Type := mkProductAttributes {
  ResourceID : string;
  ProductCode : string
}.

Record periodicCosts : Type := mkPeriodicCosts {
  Hourly : float;
  Daily : float;
  Weekly : float;
  Monthly : float
}.

(** [periodicCosts{}] *)
Definition zero_costs : periodicCosts :=
  {| Hourly := 0; Daily := 0; Weekly := 0; Monthly := 0 |}.

(** [sql.Named(name, value)] *)
Record NamedArg : Type := Named { ArgName : string; ArgValue : string }.

(** Sequencing of calls that may panic. *)
Definition and_then {A B} (o : outcome A) (f : A -> outcome B) : outcome B :=
  match o with
  | Returned a => f a
  | Panicked reason => Panicked reason
  end.

(** [*p] *)
Definition deref {A} (p : option A) : outcome A :=
  match p with
  | Some a => Returned a
  | None =>
    Panicked "runtime error: invalid memory address or nil pointer dereference"
  end.

(** [s[0]] *)
Definition index0 {A} (s : list A) : outcome A :=
  match s with
  | a :: _ => Returned a
  | [] => Panicked "runtime error: index out of range [0] with length 0"
  end.

(** What cost.go takes from elsewhere: the resource types of api/v1 (string
    constants); Go values, the nil one, the assertion [v.(string)] and
    [json.Unmarshal] into a nil [map[string]interface{}]; the scrape
    context, the connection and the key lookup of this package; the Athena
    driver and database/sql. *)
Class Cloud : Type := {
  AWSEC2Instance : string;
  AWSEKSCluster : string;
  AWSS3Bucket : string;
  AWSLoadBalancer : string;
  AWSLoadBalancerV2 : string;
  AWSEBSVolume : string;
  AWSRDSInstance : string;
  Value : Type;
  nil : Value;
  string_of_Value : Value -> option string;
  (** the dynamic type of a value as the runtime prints it, [nil] for the
      nil interface value *)
  Value_type : Value -> string;
  json_Unmarshal : string -> gmap string Value * option error;
  ScrapeContext : Type;
  AWSConnection : Type;
  AthenaConfig : Type;
  DB : Type;
  Row : Type;
  getAccessAndSecretKey :
    ScrapeContext -> AWSConnection -> (string * string) + error;
  athena_NewDefaultConfig :
    string -> string -> string -> string -> AthenaConfig + error;
  Config_Stringify : AthenaConfig -> string;
  athena_DriverName : string;
  sql_Open : string -> string -> DB + error;
  DB_QueryRow : DB -> string -> list NamedArg -> Row;
  (** [row.Scan(&costs.Hourly, &costs.Daily, &costs.Weekly,
      &costs.Monthly)]: the four destinations as the call leaves them, and
      its error *)
  Row_Scan : Row -> periodicCosts -> periodicCosts * option error
}.

Section Cost.
Context `{C : Cloud}.

(** The panic of a failed assertion [v.(string)] on an [interface{}]: the
    message of the runtime's [TypeAssertionError]. *)
Definition interface_conversion (v : Value) : string :=
  "interface conversion: interface {} is " +:+ Value_type v
  +:+ ", not string".

Definition getJSONKey (body key : string) : Value * option error :=
  match json_Unmarshal body with
  | (_, Some err) => (nil, Some err)
  | (j, None) => (default nil (j !! key), None)
  end.

Definition attributes (resourceID productCode : string)
  : outcome (productAttributes * option error) :=
  Returned ({| ResourceID := resourceID; ProductCode := productCode |}, None).

Definition getProductAttributes (ci : models.ConfigItem)
  : outcome (productAttributes * option error) :=
  and_then (deref (models.ExternalType ci)) (fun t =>
  if String.eqb t AWSEC2Instance then
    and_then (deref (models.Name ci)) (fun name =>
    attributes name "AmazonEC2")
  else if String.eqb t AWSEKSCluster then
    and_then (deref (models.Config ci)) (fun config =>
    match getJSONKey config "arn" with
    | (_, Some err) =>
      Returned ({| ResourceID := ""; ProductCode := "" |}, Some err)
    | (arn, None) =>
      match string_of_Value arn with
      | Some resourceID => attributes resourceID "AmazonEKS"
      | None => Panicked (interface_conversion arn)
      end
    end)
  else if String.eqb t AWSS3Bucket then
    and_then (deref (models.Name ci)) (fun name =>
    attributes name "AmazonS3")
  else if String.eqb t AWSLoadBalancer then
    and_then (deref (models.Region ci)) (fun region =>
    and_then (deref (models.Account ci)) (fun account =>
    and_then (deref (models.Name ci)) (fun name =>
    attributes
      ("arn:aws:elasticloadbalancing:" +:+ region +:+ ":" +:+ account
       +:+ ":loadbalancer/" +:+ name)
      "AWSELB")))
  else if String.eqb t AWSLoadBalancerV2 then
    and_then (index0 (models.ExternalID ci)) (fun id =>
    attributes id "AWSELBV2")
  else if String.eqb t AWSEBSVolume then
    and_then (deref (models.Name ci)) (fun name =>
    attributes name "AmazonEC2")
  else if String.eqb t AWSRDSInstance then
    and_then (index0 (models.ExternalID ci)) (fun id =>
    attributes id "AmazonRDS")
  else attributes "" "").

Definition getAWSAthenaConfig (ctx : ScrapeContext)
    (awsConfig : v1aws.AWS AWSConnection)
  : outcome (AthenaConfig + error) :=
  and_then (deref (v1aws.Connection awsConfig)) (fun conn =>
  match getAccessAndSecretKey ctx conn with
  | inr err => Returned (inr err)
  | inl (accessKey, secretKey) =>
    Returned (athena_NewDefaultConfig
      (v1aws.S3BucketPath (v1aws.Reporting awsConfig))
      (v1aws.Region (v1aws.Reporting awsConfig)) accessKey secretKey)
  end).

(** The query and its arguments, as [FetchCosts] builds them. *)
Definition costQuery (config : v1aws.AWS AWSConnection) : string :=
  let table := v1aws.Database (v1aws.Reporting config) +:+ "."
               +:+ v1aws.Table (v1aws.Reporting config) in
  strings.ReplaceAll costQueryTemplate "$table" table.

Definition queryArgs (attrs : productAttributes) : list NamedArg :=
  [Named "id" (ResourceID attrs); Named "product_code" (ProductCode attrs)].

Definition FetchCosts (ctx : ScrapeContext) (config : v1aws.AWS AWSConnection)
    (ci : models.ConfigItem) : outcome (periodicCosts * option error) :=
  and_then (getProductAttributes ci) (fun a =>
  match a with
  | (_, Some err) => Returned (zero_costs, Some err)
  | (attrs, None) =>
    and_then (getAWSAthenaConfig ctx config) (fun c =>
    match c with
    | inr err => Returned (zero_costs, Some err)
    | inl athenaConf =>
      match sql_Open athena_DriverName (Config_Stringify athenaConf) with
      | inr err => Returned (zero_costs, Some err)
      | inl athenaDB =>
        let query := costQuery config in
        let costs := zero_costs in
        match Row_Scan (DB_QueryRow athenaDB query (queryArgs attrs)) costs with
        | (_, Some err) => Returned (zero_costs, None)
        | (costs, None) => Returned (costs, None)
        end
      end
    end)
  end).

End Cost.

End aws.


(** ** A small cost database

    Collaborators for [FetchCosts] small enough to run it: the keys are the
    connection itself, the Athena configuration is its connection string,
    and a database is a table from resource id to one result row. A row
    holds four columns, [None] for SQL NULL (what [SUM] yields over no
    rows); [Scan] assigns the columns in order and stops at the first one
    it cannot convert. *)
Module mini_aws.
Import aws.

Definition AWSEC2Instance : string := "AWS::EC2::Instance".
Definition AWSEKSCluster : string := "AWS::EKS::Cluster".
Definition AWSS3Bucket : string := "AWS::S3::Bucket".
Definition AWSLoadBalancer : string := "AWS::ElasticLoadBalancing::LoadBalancer".
Definition AWSLoadBalancerV2 : string :=
  "AWS::ElasticLoadBalancingV2::LoadBalancer".
Definition AWSEBSVolume : string := "AWS::EBS::Volume".
Definition AWSRDSInstance : string := "AWS::RDS::DBInstance".

Definition Unmarshal (body : string) : gmap string mini.value * option error :=
  (mini.Unmarshal body ∅ (mini.store_of ∅)).1.

(** The dynamic type of a value decoded from JSON: a number decodes as a
    [float64]. *)
Definition type_of (v : mini.value) : string :=
  match v with
  | mini.VInt _ => "float64"
  | _ => mini.go_type v
  end.

Definition getAccessAndSecretKey (ctx : unit) (conn : string * string)
  : (string * string) + error :=
  if String.eqb conn.1 "" then inr (errors_New "no access key") else inl conn.

Definition NewDefaultConfig (bucket region accessKey secretKey : string)
  : string + error :=
  if String.eqb bucket "" then inr (errors_New "s3 bucket path is empty")
  else inl (bucket +:+ "?region=" +:+ region +:+ "&accessID=" +:+ accessKey).

Definition row : Type := list (option float).
Definition db : Type := gmap string row.

Definition Open (driver dsn : string) : db + error :=
  if String.eqb driver "awsathena"
  then inl {[ "i-0abc" := [Some 0.5; Some 12; Some 84; Some 360];
              "i-0def" := [Some 0.25; None; None; None] ]}%float
  else inr (errors_New ("sql: unknown driver " +:+ driver)).

Definition QueryRow (d : db) (query : string) (args : list NamedArg) : row :=
  match args with
  | a :: _ => default [None; None; None; None] (d !! ArgValue a)
  | [] => []
  end.

Definition null_error : error :=
  errors_New "sql: Scan error: converting NULL to float64 is unsupported".

Definition Scan (r : row) (costs : periodicCosts)
  : periodicCosts * option error :=
  match r with
  | [h; d; w; m] =>
    match h with
    | None => (costs, Some null_error)
    | Some h =>
      let costs := {| Hourly := h; Daily := Daily costs;
                      Weekly := Weekly costs; Monthly := Monthly costs |} in
      match d with
      | None => (costs, Some null_error)
      | Some d =>
        let costs := {| Hourly := Hourly costs; Daily := d;
                        Weekly := Weekly costs; Monthly := Monthly costs |} in
        match w with
        | None => (costs, Some null_error)
        | Some w =>
          let costs := {| Hourly := Hourly costs; Daily := Daily costs;
                          Weekly := w; Monthly := Monthly costs |} in
          match m with
          | None => (costs, Some null_error)
          | Some m =>
            ({| Hourly := Hourly costs; Daily := Daily costs;
                Weekly := Weekly costs; Monthly := m |}, None)
          end
        end
      end
    end
  | _ => (costs, Some (errors_New "sql: expected 4 destination arguments in Scan"))
  end.

#[export] Instance cloud : Cloud := {|
  aws.AWSEC2Instance := AWSEC2Instance;
  aws.AWSEKSCluster := AWSEKSCluster;
  aws.AWSS3Bucket := AWSS3Bucket;
  aws.AWSLoadBalancer := AWSLoadBalancer;
  aws.AWSLoadBalancerV2 := AWSLoadBalancerV2;
  aws.AWSEBSVolume := AWSEBSVolume;
  aws.AWSRDSInstance := AWSRDSInstance;
  Value := mini.value;
  nil := mini.VNil;
  string_of_Value := mini.string_of;
  Value_type := type_of;
  json_Unmarshal := Unmarshal;
  ScrapeContext := unit;
  AWSConnection := string * string;
  AthenaConfig := string;
  DB := db;
  Row := row;
  aws.getAccessAndSecretKey := getAccessAndSecretKey;
  athena_NewDefaultConfig := NewDefaultConfig;
  Config_Stringify := fun c => c;
  athena_DriverName := "awsathena";
  sql_Open := Open;
  DB_QueryRow := QueryRow;
  Row_Scan := Scan
|}.

Definition sample_config : v1aws.AWS (string * string) :=
  {| v1aws.Connection := Some ("AKIA", "secret");
     v1aws.Reporting := {| v1aws.S3BucketPath := "s3://reports";
                           v1aws.Table := "cur";
                           v1aws.Database := "billing";
                           v1aws.Region := "eu-west-1" |} |}.

Definition instance (name : string) : models.ConfigItem :=
  {| models.ID := "1"; models.ExternalType := Some AWSEC2Instance;
     models.Name := Some name; models.Config := None;
     models.Region := None; models.Account := None;
     models.ExternalID := [] |}.

End mini_aws.


(** ** utils/templating: the shared-library loader *)
Module library.
Import templating.

(** The error [fmt.Errorf] makes for a format with [%w]: a message, and
    the error it wraps. *)
Inductive wrapError : Type := fmt_Errorf_w (msg : string) (err : error).

(** [e.Error()] and [e.Unwrap()] *)
Definition wrapError_Error (e : wrapError) : string :=
  match e with fmt_Errorf_w msg _ => msg end.

Definition Unwrap (e : wrapError) : error :=
  match e with fmt_Errorf_w _ err => err end.

(** What the loader calls beside the runtime: [os.ReadFile], the trace
    log of flanksource/commons, and [vm.RunScript(name, src)]. *)
Class Files `{H : Host} : Type := {
  os_ReadFile : string -> Store -> (string + error) * Store;
  logger_Tracef : string -> Store -> Store;
  Runtime_RunScript :
    Runtime -> string -> string -> Store -> (JSValue + error) * Store
}.

Section Load.
Context `{F : Files}.

Definition LoadSharedLibrary (vm : Runtime) (source : string) (s : Store)
  : option wrapError * Store :=
  let source := strings.TrimSpace source in
  match os_ReadFile source s with
  | (inr err, s1) =>
    (Some (fmt_Errorf_w
       ("failed to read shared library " +:+ source +:+ ": " +:+ Error err)
       err), s1)
  | (inl data, s1) =>
    let s2 := logger_Tracef ("Loaded " +:+ source +:+ ": " +:+ LF +:+ data) s1 in
    match Runtime_RunScript vm source data s2 with
    | (inr err, s3) =>
      (Some (fmt_Errorf_w ("vm.RunScript(); " +:+ Error err) err), s3)
    | (inl _, s3) => (None, s3)
    end
  end.

End Load.

End library.

(** Files for the small host: one library on disk; a script file runs as
    a script string does. *)
Module mini_files.
Import templating.

Definition disk : gmap string string := {[ "lib.js" := "7" ]}.

Definition ReadFile (name : string) (s : mini.store)
  : (string + error) * mini.store :=
  match disk !! name with
  | Some data => (inl data, s)
  | None =>
    (inr (errors_New ("open " +:+ name +:+ ": no such file or directory")), s)
  end.

#[export] Instance files : @library.Files mini.host :=
  @library.Build_Files mini.host ReadFile (fun _ s => s)
    (fun vm _ src => mini.RunString vm src).

End mini_files.

(** ** scrapers/aws: the cost scraper *)
Module CostScraper.
Import aws.

(** What [Scrape] takes from elsewhere: [NewSession] of this package, the
    STS client ([GetCallerIdentity], as the [Account] pointer of its
    output), [db.QueryAWSResources], and of api/v1 the result type with the
    struct literal [Scrape] writes and [ScrapeResults.Errorf]. *)
Class Scraping `{C : Cloud} : Type := {
  Session : Type;
  ScrapeResult : Type;
  NewSession : ScrapeContext -> AWSConnection -> string -> Session + error;
  GetCallerIdentity : Session -> ScrapeContext -> option string + error;
  QueryAWSResources : string -> list models.ConfigItem + error;
  (** [v1.ScrapeResult{ID: .., CostPerMinute: .., CostTotal1d: ..,
      CostTotal7d: .., CostTotal30d: ..}] *)
  CostResult : string -> float -> float -> float -> float -> ScrapeResult;
  Errorf : list ScrapeResult -> error -> string -> list ScrapeResult
}.

Section Scrape.
Context `{S : Scraping}.

(** [v1.AWS] as [Scrape] reads it: what [FetchCosts] reads, and the
    field [Region]. *)
Record AWS : Type := mkAWS {
  Config : v1aws.AWS AWSConnection;
  Region : list string
}.

(** [v1.ConfigScraper], its field [AWS]. *)
Record ConfigScraper : Type := mkConfigScraper {
  AWSConfigs : list AWS
}.

(** The result [Scrape] appends for an item and its costs. *)
Definition result_of (configItem : models.ConfigItem) (costs : periodicCosts)
  : ScrapeResult :=
  CostResult (models.ID configItem) (Hourly costs / 60)%float (Daily costs)
    (Weekly costs) (Monthly costs).

(** [for _, configItem := range configItems { ... }] *)
Fixpoint scrape_items (ctx : ScrapeContext) (awsConfig : AWS)
    (configItems : list models.ConfigItem) (results : list ScrapeResult)
  : outcome (list ScrapeResult) :=
  match configItems with
  | [] => Returned results
  | configItem :: rest =>
    and_then (FetchCosts ctx (Config awsConfig) configItem) (fun r =>
    match r with
    | (_, Some err) =>
      (* TODO Log error *)
      scrape_items ctx awsConfig rest results
    | (costs, None) =>
      scrape_items ctx awsConfig rest (results ++ [result_of configItem costs])
    end)
  end.

(** [for _, awsConfig := range config.AWS { ... }] *)
Fixpoint scrape_configs (ctx : ScrapeContext) (configs : list AWS)
    (results : list ScrapeResult) : outcome (list ScrapeResult) :=
  match configs with
  | [] => Returned results
  | awsConfig :: rest =>
    and_then (deref (v1aws.Connection (Config awsConfig))) (fun conn =>
    and_then (index0 (Region awsConfig)) (fun region =>
    match NewSession ctx conn region with
    | inr err => Returned (Errorf results err "failed to create AWS session")
    | inl session =>
      match GetCallerIdentity session ctx with
      | inr err => Returned (Errorf results err "failed to get identity")
      | inl account =>
        and_then (deref account) (fun accountID =>
        (* fetch config items which match aws resources and account *)
        match QueryAWSResources accountID with
        | inr err =>
          Returned (Errorf results err "failed to query config items from db")
        | inl configItems =>
          and_then (scrape_items ctx awsConfig configItems results)
            (fun results => scrape_configs ctx rest results)
        end)
      end
    end))
  end.

Definition Scrape (ctx : ScrapeContext) (config : ConfigScraper)
  : outcome (list ScrapeResult) :=
  scrape_configs ctx (AWSConfigs config) [].

End Scrape.

End CostScraper.

(** The small cost database as a scraper. The account of region
    [eu-west-1] holds the instances [i-0abc], [i-0def] and [i-0xyz]; the
    account of region [us-east-1] holds [i-0abc] and an item with no
    resource type. *)
Module mini_scraper.
Import aws CostScraper.

Record result : Type := mkResult {
  ID : string;
  CostPerMinute : float;
  CostTotal1d : float;
  CostTotal7d : float;
  CostTotal30d : float;
  Error_ : option error
}.

Definition NewSession (ctx : unit) (conn : string * string) (region : string)
  : string + error :=
  if String.eqb region "" then inr (errors_New "missing region")
  else inl region.

Definition GetCallerIdentity (session : string) (ctx : unit)
  : option string + error :=
  if String.eqb session "us-east-1" then inl (Some "999999999999")
  else inl (Some "123456789012").

(** The instance [name], under the id [id]. *)
Definition ec2 (id name : string) : models.ConfigItem :=
  {| models.ID := id; models.ExternalType := Some mini_aws.AWSEC2Instance;
     models.Name := Some name; models.Config := None;
     models.Region := None; models.Account := None;
     models.ExternalID := [] |}.

(** A cluster whose configuration is [body]. *)
Definition cluster (body : string) : models.ConfigItem :=
  {| models.ID := "2"; models.ExternalType := Some mini_aws.AWSEKSCluster;
     models.Name := Some "prod"; models.Config := Some body;
     models.Region := None; models.Account := None;
     models.ExternalID := [] |}.

(** An item of a resource type [FetchCosts] has no case for. *)
Definition lambda : models.ConfigItem :=
  {| models.ID := "3"; models.ExternalType := Some "AWS::Lambda::Function";
     models.Name := Some "fn"; models.Config := None;
     models.Region := None; models.Account := None;
     models.ExternalID := [] |}.

(** An item with no resource type. *)
Definition untyped : models.ConfigItem :=
  {| models.ID := "4"; models.ExternalType := None;
     models.Name := Some "x"; models.Config := None;
     models.Region := None; models.Account := None;
     models.ExternalID := [] |}.

Definition QueryAWSResources (accountID : string)
  : list models.ConfigItem + error :=
  if String.eqb accountID "123456789012"
  then inl [ec2 "a" "i-0abc"; ec2 "d" "i-0def"; ec2 "x" "i-0xyz"]
  else if String.eqb accountID "999999999999"
  then inl [ec2 "a" "i-0abc"; untyped]
  else inl [].

#[export] Instance scraping : @Scraping mini_aws.cloud :=
  @Build_Scraping mini_aws.cloud string result NewSession GetCallerIdentity
    QueryAWSResources (fun id m d w mo => mkResult id m d w mo None)
    (fun results err msg => results ++ [mkResult "" 0 0 0 0 (Some err)]).

(** The configuration of [sample_config] in region [region]. *)
Definition in_region (region : string) : @AWS mini_aws.cloud :=
  @mkAWS mini_aws.cloud mini_aws.sample_config [region].

End mini_scraper.

(** The small host with a strict [Execute]: a field the data does not
    hold is an error (text/template under [missingkey=error]). *)
Module mini_strict.
Import templating.

Fixpoint execute (ns : list mini.node) (data : gmap string mini.value)
    (buf : string) : string * option error :=
  match ns with
  | [] => (buf, None)
  | mini.Text t :: ns' => execute ns' data (buf +:+ t)
  | mini.Field f :: ns' =>
    match data !! f with
    | Some v => execute ns' data (buf +:+ mini.Sprint v)
    | None =>
      (buf, Some (errors_New
         ("template: :1: map has no entry for key " +:+ f)))
    end
  end.

Definition Execute (ns : list mini.node) (data : gmap string mini.value)
    (s : mini.store) : (string * option error) * mini.store :=
  (execute ns data "", s).

#[export] Instance host : Host :=
  @Build_Host mini.value mini.string_of mini.Sprint mini.store unit
    (fun s _ => mini.env s) (fun s _ => map_to_list (mini.env s))
    unit mini.jsvalue mini.rtype mini.New mini.Set_ mini.RunString
    mini.Export mini.ExportType mini.Name
    unit (list mini.node) tt mini.Parse Execute
    mini.Marshal mini.Unmarshal
    unit (gmap string mini.value) (list mini.atom)
    mini.MakeExpressionOptions mini.MakeExpressionEnvs mini.Compile mini.Run.

End mini_strict.


(** * Properties of [Template] *)

Import templating.

(** The three engines, and the engine each call belongs to (the JSON
    round trip prepares the data of the text template). *)
Inductive Engine : Type := Script | TextTemplate | ExpressionEngine.

Definition engine_of (c : Call) : Engine :=
  match c with
  | call_goja_New | call_Runtime_Set _ | call_Runtime_RunString _ => Script
  | call_Template_Parse _ | call_json_Marshal | call_json_Unmarshal _
  | call_Template_Execute => TextTemplate
  | call_MakeExpressionOptions | call_expr_Compile _
  | call_MakeExpressionEnvs | call_expr_Run => ExpressionEngine
  end.

(** The selection rule in the specification's words: the first field
    that is not empty, in the order script, template, expression. *)
Definition selected (template : v1.Template) : option Engine :=
  if bool_decide (v1.Javascript template = "") then
    if bool_decide (v1.Template_ template = "") then
      if bool_decide (v1.Expression template = "") then None
      else Some ExpressionEngine
    else Some TextTemplate
  else Some Script.

(** The specification with every field but the one of engine [e] emptied. *)
Definition only (e : option Engine) (template : v1.Template) : v1.Template :=
  match e with
  | Some Script => v1.mkTemplate (v1.Javascript template) "" ""
  | Some TextTemplate => v1.mkTemplate "" (v1.Template_ template) ""
  | Some ExpressionEngine => v1.mkTemplate "" "" (v1.Expression template)
  | None => v1.mkTemplate "" "" ""
  end.

(** The calls with which [Template] enters an engine: a new runtime for a
    script, [Parse] of the body for a text template, the options and
    [Compile] of the body for an expression. *)
Definition enters (e : option Engine) (template : v1.Template) : list Call :=
  match e with
  | Some Script => [call_goja_New]
  | Some TextTemplate => [call_Template_Parse (v1.Template_ template)]
  | Some ExpressionEngine =>
    [call_MakeExpressionOptions; call_expr_Compile (v1.Expression template)]
  | None => []
  end.

Definition is_RunString (c : Call) : bool :=
  match c with call_Runtime_RunString _ => true | _ => false end.

Definition is_Execute (c : Call) : bool :=
  match c with call_Template_Execute => true | _ => false end.

(** Bytes below [utf8.RuneSelf], and runs of ASCII space bytes. *)
Definition ascii_only (s : list N) : Prop :=
  Forall (fun c => (c <? utf8.RuneSelf)%N = true) s.

Definition spaces (s : list N) : Prop :=
  Forall (fun c => strings.asciiSpace c = true) s.

Section Laws.
Context `{H : Host}.

(** What encoding/json guarantees: [Marshal] returns nil bytes with an
    error ([return nil, err]), and [Unmarshal] of no bytes fails
    (unexpected end of JSON input). *)
Record json_laws : Prop := {
  Marshal_error_nil :
    forall m s data err s',
      json_Marshal m s = ((data, Some err), s') -> data = "";
  Unmarshal_empty :
    forall into s, exists u err s',
      json_Unmarshal "" into s = ((u, Some err), s')
}.

(** A [range] loop visits every entry of the map once. *)
Definition range_law : Prop :=
  forall s m, range s m ≡ₚ map_to_list (contents s m).

(** Binding [k] to [v] fails, whatever the runtime and the store. *)
Definition binding_fails (k : string) (v : Value) : Prop :=
  forall vm s, exists err s', Runtime_Set vm k v s = (Some err, s').

(** The call leaves the entries of [environment] as they are. *)
Definition keeps (environment : Map) {A} (op : Store -> A * Store) : Prop :=
  forall s, contents (op s).2 environment = contents s environment.

(** No engine (goja, text/template, encoding/json, expr) writes to
    [environment]. The helpers of flanksource/commons are not among them:
    they do write, see [registers]. *)
Record read_only (environment : Map) : Prop := {
  keeps_New : keeps environment goja_New;
  keeps_Set : forall vm k v, keeps environment (Runtime_Set vm k v);
  keeps_RunString : forall vm src, keeps environment (Runtime_RunString vm src);
  keeps_Parse : forall f text, keeps environment (Template_Parse f text);
  keeps_Execute : forall t data, keeps environment (Template_Execute t data);
  keeps_Marshal : forall m, keeps environment (json_Marshal m);
  keeps_Unmarshal :
    forall data into, keeps environment (json_Unmarshal data into);
  keeps_Compile : forall e o, keeps environment (expr_Compile e o);
  keeps_Run : forall p e, keeps environment (expr_Run p e)
}.

(** What [text.MakeExpressionEnvs] of flanksource/commons does with the
    map it is handed: it stores every function of its library [funcs] in
    that map ([envs[k] = v], over an entry of the same name) and returns
    it. *)
Definition registers (environment : Map) (funcs : gmap string Value) : Prop :=
  forall s,
    funcs ⊆ contents (text_MakeExpressionEnvs environment s).2 environment.

(** The computation leaves the entries of [environment] as they are. *)
Definition preserves (environment : Map) {A} (m : M A) : Prop :=
  forall s, contents (m s).1.2 environment = contents s environment.

End Laws.

(** A byte that is ASCII and no space: where [TrimSpace] stops. *)
Definition stops_trim (c : N) : Prop :=
  (c <? utf8.RuneSelf)%N = true /\ strings.asciiSpace c = false.

(** Bytes that are empty, or start and end with a byte [TrimSpace] stops
    at (the bytes between are free). *)
Definition trimmed (p : list N) : Prop :=
  p = [] \/
  (exists c, head p = Some c /\ stops_trim c)
  /\ (exists c, last p = Some c /\ stops_trim c).

(** The product codes [getProductAttributes] knows. *)
Definition product_codes : list string :=
  ["AmazonEC2"; "AmazonEKS"; "AmazonS3"; "AWSELB"; "AWSELBV2"; "AmazonRDS"].

Section ScrapeSpec.
Context `{S : CostScraper.Scraping}.

(** What one item adds to the results: its result when [FetchCosts]
    returns a nil error, nothing when it returns an error. *)
Definition fetched (ctx : aws.ScrapeContext) (awsConfig : CostScraper.AWS)
    (configItem : models.ConfigItem) : option CostScraper.ScrapeResult :=
  match aws.FetchCosts ctx (CostScraper.Config awsConfig) configItem with
  | Returned (costs, None) => Some (CostScraper.result_of configItem costs)
  | _ => None
  end.

(** The steps of [Scrape] before the items succeed for [awsConfig]: it has
    a connection and a first region, the session opens, the caller has an
    account, and the database lists [configItems] for it. *)
Definition ready (ctx : aws.ScrapeContext) (awsConfig : CostScraper.AWS)
    (configItems : list models.ConfigItem) : Prop :=
  exists conn region regions session accountID,
    v1aws.Connection (CostScraper.Config awsConfig) = Some conn
    /\ CostScraper.Region awsConfig = region :: regions
    /\ CostScraper.NewSession ctx conn region = inl session
    /\ CostScraper.GetCallerIdentity session ctx = inl (Some accountID)
    /\ CostScraper.QueryAWSResources accountID = inl configItems.

(** [FetchCosts] returns for the item (it does not panic). *)
Definition returns (ctx : aws.ScrapeContext) (awsConfig : CostScraper.AWS)
    (configItem : models.ConfigItem) : Prop :=
  exists r,
    aws.FetchCosts ctx (CostScraper.Config awsConfig) configItem = Returned r.

(** A configuration with the items the database lists for it, for which
    the steps before the items succeed and [FetchCosts] returns on every
    item; and the results the items of such a configuration add. *)
Definition scrapes (ctx : aws.ScrapeContext)
    (c : CostScraper.AWS * list models.ConfigItem) : Prop :=
  ready ctx c.1 c.2 /\ Forall (returns ctx c.1) c.2.

Definition results_of (ctx : aws.ScrapeContext)
    (c : CostScraper.AWS * list models.ConfigItem)
  : list CostScraper.ScrapeResult :=
  omap (fetched ctx c.1) c.2.

End ScrapeSpec.


(** Case analysis on every library call and test a goal still holds. *)
Ltac cases := repeat (case_match; simpl in *; simplify_eq).

Ltac unfold_M := unfold bind, call, ret, gets, panic in *.

(** The dispatcher's tests, decided from what is known of the fields. *)
Ltac dispatch :=
  unfold Template; simpl;
  repeat match goal with
  | Hf : ?f = "" |- context [bool_decide (?f ≠ "")] =>
    rewrite !(bool_decide_false (f ≠ "")) by (rewrite Hf; auto)
  | Hf : ?f ≠ "" |- context [bool_decide (?f ≠ "")] =>
    rewrite !(bool_decide_true (f ≠ "")) by exact Hf
  end.

Ltac all_calls :=
  repeat first
    [ apply Forall_cons_2 | apply Forall_app_2 | apply Forall_nil_2 | done ].

(** * [strings.TrimSpace] *)

Section TrimSpace.
Implicit Types s l r : list N.

Lemma indexFunc_suffix fuel s f truth rest :
  strings.indexFunc fuel s f truth = Some rest -> exists n, rest = drop n s.
Proof.
  revert s. induction fuel as [|fuel IH]; intros s; simpl; [done|].
  destruct s as [|c s']; [done|].
  destruct (utf8.DecodeRuneInString (c :: s')) as [x size].
  destruct (Bool.eqb (f x) truth).
  - intros [= <-]. by exists 0.
  - intros Heq. destruct (IH _ Heq) as [n ->]. exists (size + n).
    by rewrite drop_drop.
Qed.

Lemma TrimLeftFunc_suffix s f : exists n, strings.TrimLeftFunc s f = drop n s.
Proof.
  unfold strings.TrimLeftFunc.
  destruct (strings.indexFunc _ s f false) as [rest|] eqn:Heq.
  - eauto using indexFunc_suffix.
  - exists (length s). by rewrite drop_all.
Qed.

Lemma TrimRightFunc_prefix s f : exists n, strings.TrimRightFunc s f = take n s.
Proof.
  unfold strings.TrimRightFunc.
  destruct (strings.lastIndexFunc _ s _ f false) as [i|]; [|by eauto].
  destruct (utf8.RuneSelf <=? byte_at s i)%N; [|by eauto].
  destruct (utf8.DecodeRuneInString (drop i s)). eauto.
Qed.

Lemma TrimSpace_stop_prefix s stop :
  exists n, strings.TrimSpace_stop s stop = take n s.
Proof.
  induction stop as [|stop IH]; simpl; [by eauto|].
  destruct (utf8.RuneSelf <=? byte_at s stop)%N.
  - destruct (TrimRightFunc_prefix (take (S stop) s) unicode.IsSpace) as [n ->].
    exists (n `min` S stop). by rewrite take_take.
  - destruct (strings.asciiSpace _); eauto.
Qed.

(** [TrimSpace] returns a part of its argument: it only takes bytes off
    the two ends. *)
Lemma TrimSpace_start_infix s :
  exists l r, s = l ++ strings.TrimSpace_start s ++ r.
Proof.
  induction s as [|c s IH]; simpl.
  { by exists [], []. }
  assert (forall t, (exists n, t = take n (c :: s)) ->
                    exists l r, c :: s = l ++ t ++ r) as Hprefix.
  { intros t [n ->]. exists [], (drop n (c :: s)). simpl.
    by rewrite take_drop. }
  destruct (utf8.RuneSelf <=? c)%N.
  - unfold strings.TrimFunc.
    destruct (TrimLeftFunc_suffix (c :: s) unicode.IsSpace) as [n Hn].
    destruct (TrimRightFunc_prefix (strings.TrimLeftFunc (c :: s) unicode.IsSpace)
                unicode.IsSpace) as [m ->].
    rewrite Hn. exists (take n (c :: s)), (drop m (drop n (c :: s))).
    by rewrite !take_drop.
  - destruct (strings.asciiSpace c).
    + destruct IH as (l & r & Heq). exists (c :: l), r. simpl. by rewrite <-Heq.
    + apply Hprefix. apply (TrimSpace_stop_prefix (c :: s) (S (length s))).
Qed.

Lemma TrimSpace_stop_ascii s stop :
  stop <= length s -> ascii_only s ->
  exists r,
    take stop s = strings.TrimSpace_stop s stop ++ r
    /\ spaces r
    /\ forall c, last (strings.TrimSpace_stop s stop) = Some c ->
                 strings.asciiSpace c = false.
Proof.
  intros Hle Hascii. induction stop as [|stop IH]; simpl.
  { exists []. split; [done|]. split; [constructor|done]. }
  destruct (lookup_lt_is_Some_2 s stop) as [c Hc]; [lia|].
  assert (byte_at s stop = c) as -> by (unfold byte_at; by rewrite nth_lookup, Hc).
  pose proof (Forall_lookup_1 _ _ _ _ Hascii Hc) as Hlt; simpl in Hlt.
  replace (utf8.RuneSelf <=? c)%N with false
    by (symmetry; apply N.leb_gt; by apply N.ltb_lt).
  rewrite (take_S_r _ _ _ Hc).
  destruct (strings.asciiSpace c) eqn:Hspace.
  - destruct IH as (r & -> & Hr & Hlast); [lia|].
    exists (r ++ [c]). rewrite <-(assoc_L (++)). split; [done|].
    split; [|done]. apply Forall_app; split; [done|by constructor].
  - exists []. rewrite app_nil_r. split; [done|]. split; [constructor|].
    intros c'. rewrite last_snoc. by intros [= <-].
Qed.

#[local] Arguments strings.TrimSpace_stop : simpl never.

(** On ASCII bytes [TrimSpace] takes off the longest run of space bytes
    at each end: what is cut is all spaces, and what is left neither
    starts nor ends with one. *)
Lemma TrimSpace_start_ascii s :
  ascii_only s ->
  exists l r,
    s = l ++ strings.TrimSpace_start s ++ r
    /\ spaces l /\ spaces r
    /\ (forall c, head (strings.TrimSpace_start s) = Some c ->
                  strings.asciiSpace c = false)
    /\ (forall c, last (strings.TrimSpace_start s) = Some c ->
                  strings.asciiSpace c = false).
Proof.
  induction s as [|c s IH]; intros Hascii; simpl.
  { exists [], []. split; [done|]. do 2 (split; [constructor|]). done. }
  apply Forall_cons in Hascii as [Hc Hascii].
  replace (utf8.RuneSelf <=? c)%N with false
    by (symmetry; apply N.leb_gt; by apply N.ltb_lt).
  destruct (strings.asciiSpace c) eqn:Hspace.
  - destruct (IH Hascii) as (l & r & Heq & Hl & Hr & Hhead & Hlast).
    exists (c :: l), r. simpl. rewrite <-Heq.
    split; [done|]. split; [by constructor|done].
  - destruct (TrimSpace_stop_ascii (c :: s) (length (c :: s)))
      as (r & Heq & Hr & Hlast); [done|by constructor|].
    rewrite firstn_all in Heq.
    exists [], r. simpl. split; [done|]. split; [constructor|].
    split; [done|]. split; [|done].
    destruct (strings.TrimSpace_stop (c :: s) _) as [|c'' t];
      simpl in *; [by intros c' [=]|].
    intros c' [= <-]. by simplify_eq.
Qed.

(** Examples: ASCII spaces, and the no-break space U+00A0 in UTF-8. *)
Example TrimSpace_examples :
  strings.TrimSpace ("  Hello Ann  " +:+ LF) = "Hello Ann"
  /\ strings.TrimSpace "   " = ""
  /\ bytes_of_string
       (strings.TrimSpace (string_of_bytes [32; 0xC2; 0xA0; 65; 0xC2; 0xA0; 10]%N))
     = [65%N].
Proof. vm_compute. auto. Qed.

End TrimSpace.

(** * The dispatcher *)

Section TemplateProperties.
Context `{H : Host}.

Lemma Set_each_calls vm kvs s :
  Forall (fun c => engine_of c = Script) (Set_each vm kvs s).2.
Proof.
  revert s. induction kvs as [|[k v] kvs IH]; intros s; simpl.
  - constructor.
  - unfold_M.
    destruct (Runtime_Set vm k v s) as [[err|] s1]; simpl.
    + repeat constructor.
    + specialize (IH s1).
      destruct (Set_each vm kvs s1) as [[o s2] c2]; simpl in *.
      destruct o; constructor; auto.
Qed.

(** The loop never panics. *)
Lemma Set_each_returns vm kvs s :
  exists early s' calls, Set_each vm kvs s = (Returned early, s', calls).
Proof.
  revert s. induction kvs as [|[k v] kvs IH]; intros s; simpl; [by eauto|].
  unfold_M. destruct (Runtime_Set vm k v s) as [[err|] s1]; simpl; [by eauto|].
  destruct (IH s1) as (early & s' & calls & ->). eauto.
Qed.

Lemma Template_script environment template s :
  v1.Javascript template ≠ "" ->
  Template environment template s
  = Template environment (v1.mkTemplate (v1.Javascript template) "" "") s
  /\ Forall (fun c => engine_of c = Script) (Template environment template s).2.
Proof.
  intros Hjs. dispatch. split; [done|]. unfold_M.
  destruct (goja_New s) as [vm s1].
  pose proof (Set_each_calls vm (range s1 environment) s1).
  cases; all_calls.
Qed.

Lemma Template_text environment template s :
  v1.Javascript template = "" -> v1.Template_ template ≠ "" ->
  Template environment template s
  = Template environment (v1.mkTemplate "" (v1.Template_ template) "") s
  /\ Forall (fun c => engine_of c = TextTemplate)
       (Template environment template s).2.
Proof.
  intros Hjs Ht. dispatch. split; [done|]. unfold_M. cases; all_calls.
Qed.

Lemma Template_expr environment template s :
  v1.Javascript template = "" -> v1.Template_ template = "" ->
  v1.Expression template ≠ "" ->
  Template environment template s
  = Template environment (v1.mkTemplate "" "" (v1.Expression template)) s
  /\ Forall (fun c => engine_of c = ExpressionEngine)
       (Template environment template s).2.
Proof.
  intros Hjs Ht He. dispatch. split; [done|]. unfold_M. cases; all_calls.
Qed.

(** C3: with all three fields empty [Template] returns the empty string
    and a nil error, calls no engine and leaves the store as it is. *)
Theorem Template_all_empty (environment : Map) (template : v1.Template)
    (s : Store) :
  v1.Javascript template = "" ->
  v1.Template_ template = "" ->
  v1.Expression template = "" ->
  Template environment template s = (Returned ("", None), s, []).
Proof.
  intros Hjs Ht He. dispatch. reflexivity.
Qed.

(** [Template] starts with the calls that enter the engine of the first
    field that is not empty, handing it the body of that field. *)
Lemma Template_enters environment template s :
  exists calls,
    (Template environment template s).2
    = enters (selected template) template ++ calls.
Proof.
  unfold selected, enters, Template.
  destruct (decide (v1.Javascript template = "")) as [Hjs|Hjs].
  2: { rewrite (bool_decide_false (_ = "")), (bool_decide_true (_ ≠ "")) by done.
       unfold_M. destruct (goja_New s) as [vm s1].
       destruct (Set_each vm (range s1 environment) s1) as [[o s2] c2].
       destruct o as [[err|]|reason]; simpl; [by eauto| |by eauto].
       cases; by eauto. }
  rewrite (bool_decide_true (_ = "")), (bool_decide_false (_ ≠ ""))
    by (done || by intros ?).
  destruct (decide (v1.Template_ template = "")) as [Ht|Ht].
  2: { rewrite (bool_decide_false (_ = "")), (bool_decide_true (_ ≠ "")) by done.
       unfold_M. cases; by eauto. }
  rewrite (bool_decide_true (_ = "")), (bool_decide_false (_ ≠ ""))
    by (done || by intros ?).
  destruct (decide (v1.Expression template = "")) as [He|He].
  2: { rewrite (bool_decide_false (_ = "")), (bool_decide_true (_ ≠ "")) by done.
       unfold_M. cases; by eauto. }
  rewrite (bool_decide_true (_ = "")), (bool_decide_false (_ ≠ ""))
    by (done || by intros ?).
  by exists [].
Qed.

(** C2: the engine is chosen by the first field that is not empty, in the
    order script, text template, expression. [Template] enters that engine:
    its first calls are a new runtime for a script, [Parse] of the template
    body, or the options and [Compile] of the expression body. Every call
    it makes is a call of the chosen engine, and the other fields have no
    effect: [Template] behaves as on the specification with them emptied
    (same result, same store, same calls). *)
Theorem Template_first_match_wins (environment : Map) (template : v1.Template)
    (s : Store) :
  Template environment template s
  = Template environment (only (selected template) template) s
  /\ Forall (fun c => Some (engine_of c) = selected template)
       (Template environment template s).2
  /\ exists calls,
       (Template environment template s).2
       = enters (selected template) template ++ calls.
Proof.
  split; [|split; [|apply Template_enters]]; unfold selected, only.
  all: destruct (decide (v1.Javascript template = "")) as [Hjs|Hjs].
  all: try (rewrite bool_decide_false by done;
            destruct (Template_script environment template s Hjs) as [Heq Hc];
            first [exact Heq | eapply Forall_impl; [exact Hc|]; by intros c ->]).
  all: rewrite bool_decide_true by done.
  all: destruct (decide (v1.Template_ template = "")) as [Ht|Ht].
  all: try (rewrite bool_decide_false by done;
            destruct (Template_text environment template s Hjs Ht) as [Heq Hc];
            first [exact Heq | eapply Forall_impl; [exact Hc|]; by intros c ->]).
  all: rewrite bool_decide_true by done.
  all: destruct (decide (v1.Expression template = "")) as [He|He].
  all: try (rewrite bool_decide_false by done;
            destruct (Template_expr environment template s Hjs Ht He) as [Heq Hc];
            first [exact Heq | eapply Forall_impl; [exact Hc|]; by intros c ->]).
  all: rewrite bool_decide_true by done.
  all: destruct template as [js t e]; simpl in *; subst; first [done|constructor].
Qed.

(** C6: a non-nil error comes with the empty string, on every path. *)
Theorem Template_error_empty_string (environment : Map)
    (template : v1.Template) (s s' : Store) (str : string) (err : error)
    (calls : list Call) :
  Template environment template s = (Returned (str, Some err), s', calls) ->
  str = "".
Proof.
  unfold Template. unfold_M. intros Heq. cases; done.
Qed.

End TemplateProperties.

(** * The three paths *)

Section TemplatePaths.
Context `{H : Host}.

(** C1: on the template path, when serializing the environment fails,
    [Template] returns an error and [Execute] is never called. The error
    of [Marshal] itself is dropped by the code; the call fails all the same
    because [Marshal] then hands back no bytes and [Unmarshal] rejects
    them. *)
Theorem Template_marshal_error_is_fatal (environment : Map)
    (template : v1.Template) (s : Store) :
  json_laws ->
  v1.Javascript template = "" ->
  v1.Template_ template ≠ "" ->
  (forall tpl s1,
      Template_Parse text_GetTemplateFuncs (v1.Template_ template) s
      = (inl tpl, s1) ->
      exists data err s2, json_Marshal environment s1 = ((data, Some err), s2)) ->
  exists err s' calls,
    Template environment template s = (Returned ("", Some err), s', calls)
    /\ Forall (fun c => is_Execute c = false) calls.
Proof.
  intros [Hnil Hempty] Hjs Ht Hfails. dispatch. unfold_M.
  destruct (Template_Parse _ _ s) as [[tpl|err] s1] eqn:Hparse; simpl.
  2: { eexists _, _, _. split; [done|]. by repeat constructor. }
  destruct (Hfails tpl s1 eq_refl) as (data & err & s2 & Hm).
  rewrite Hm; simpl. rewrite (Hnil _ _ _ _ _ Hm).
  destruct (Hempty ∅ s2) as (u & err' & s3 & ->); simpl.
  eexists _, _, _. split; [done|]. by repeat constructor.
Qed.

(** The script path when the script's value is no string and its
    exported type is a type: the error names it by [Name()]. *)
Lemma Template_script_not_string environment template s vm s1 s2 c2 vmOut s3 ty :
  v1.Javascript template ≠ "" ->
  goja_New s = (vm, s1) ->
  Set_each vm (range s1 environment) s1 = (Returned None, s2, c2) ->
  Runtime_RunString vm (v1.Javascript template) s2 = (inl vmOut, s3) ->
  string_of_Value (Value_Export vmOut) = None ->
  Value_ExportType vmOut = Some ty ->
  Template environment template s
  = (Returned ("", Some (fmt_Errorf
       ("failed to cast output to string; it is of type " +:+ Type_Name ty))),
     s3, call_goja_New :: c2 ++ [call_Runtime_RunString (v1.Javascript template)]).
Proof.
  intros Hjs HNew HSet HRun Hstr Hty. dispatch. unfold_M.
  by rewrite HNew, HSet, HRun, Hstr, Hty.
Qed.

(** C4: where the code departs from it. A script whose value is no string
    and whose exported type is the nil [reflect.Type] makes [Template]
    panic in [ExportType().Name()]; no error naming a type is returned. *)
Theorem Template_script_nil_type_panics (environment : Map)
    (template : v1.Template) (s s1 s2 s3 : Store) (vm : Runtime)
    (c2 : list Call) (vmOut : JSValue) :
  v1.Javascript template ≠ "" ->
  goja_New s = (vm, s1) ->
  Set_each vm (range s1 environment) s1 = (Returned None, s2, c2) ->
  Runtime_RunString vm (v1.Javascript template) s2 = (inl vmOut, s3) ->
  string_of_Value (Value_Export vmOut) = None ->
  Value_ExportType vmOut = None ->
  Template environment template s
  = (Panicked nil_dereference, s3,
     call_goja_New :: c2 ++ [call_Runtime_RunString (v1.Javascript template)]).
Proof.
  intros Hjs HNew HSet HRun Hstr Hty. dispatch. unfold_M.
  by rewrite HNew, HSet, HRun, Hstr, Hty.
Qed.

(** The loop over a list that holds a pair whose binding fails: it is left
    at the first failing pair, with that key in the error, and the failing
    [Set] is the last call made. *)
Lemma Set_each_fails vm kvs s k v :
  (k, v) ∈ kvs -> binding_fails k v ->
  exists k' v' err s0 s' calls,
    (k', v') ∈ kvs
    /\ Runtime_Set vm k' v' s0 = (Some err, s')
    /\ Set_each vm kvs s
       = (Returned (Some (errors_Wrapf err ("error setting " +:+ k'))), s',
          calls ++ [call_Runtime_Set k'])
    /\ Forall (fun c => is_RunString c = false) calls.
Proof.
  intros Hin Hfail. revert s.
  induction kvs as [|[k1 v1] kvs IH]; intros s; [by apply elem_of_nil in Hin|].
  simpl. unfold_M.
  destruct (Runtime_Set vm k1 v1 s) as [[err|] s1] eqn:HSet; simpl.
  - exists k1, v1, err, s, s1, []. split; [by left|]. by repeat split.
  - apply elem_of_cons in Hin as [Heq|Hin].
    { inversion Heq; subst. destruct (Hfail vm s) as (? & ? & ?). congruence. }
    destruct (IH Hin s1) as (k' & v' & err & s0 & s' & calls & ? & ? & -> & ?).
    exists k', v', err, s0, s', (call_Runtime_Set k1 :: calls).
    split; [by right|]. repeat split; [done|by constructor].
Qed.

(** C5: when binding one pair of the environment fails, [Template] returns
    at once, at the first pair the loop fails on, with an error that wraps
    that failure and names that key; the failing [Set] is the last call
    made and the script is never run. *)
Theorem Template_binding_error (environment : Map) (template : v1.Template)
    (s : Store) (k : string) (v : Value) :
  range_law ->
  v1.Javascript template ≠ "" ->
  contents (goja_New s).2 environment !! k = Some v ->
  binding_fails k v ->
  exists k' v' err vm s0 s' calls,
    contents (goja_New s).2 environment !! k' = Some v'
    /\ Runtime_Set vm k' v' s0 = (Some err, s')
    /\ Template environment template s
       = (Returned ("", Some (errors_Wrapf err ("error setting " +:+ k'))), s',
          calls ++ [call_Runtime_Set k'])
    /\ Forall (fun c => is_RunString c = false) calls.
Proof.
  intros Hrange Hjs Hk Hfail. dispatch. unfold_M.
  destruct (goja_New s) as [vm s1]; simpl in *.
  assert ((k, v) ∈ range s1 environment) as Hin.
  { rewrite (Hrange s1 environment). by apply elem_of_map_to_list. }
  destruct (Set_each_fails vm _ s1 k v Hin Hfail)
    as (k' & v' & err & s0 & s' & calls & Hin' & HSet & -> & Hcalls).
  exists k', v', err, vm, s0, s', (call_goja_New :: calls).
  split. { rewrite (Hrange s1 environment) in Hin'. by apply elem_of_map_to_list. }
  split; [done|]. split; [by rewrite app_nil_r|by constructor].
Qed.

(** C7: on the text-template path, when the body parses and executes, the
    result is the rendered buffer trimmed by [strings.TrimSpace], with a
    nil error. *)
Theorem Template_text_trimmed (environment : Map) (template : v1.Template)
    (s s1 s2 s3 s4 : Store) (tpl : Tmpl) (data : string)
    (merr : option error) (unstructured : gmap string Value) (buf : string) :
  v1.Javascript template = "" ->
  v1.Template_ template ≠ "" ->
  Template_Parse text_GetTemplateFuncs (v1.Template_ template) s
  = (inl tpl, s1) ->
  json_Marshal environment s1 = ((data, merr), s2) ->
  json_Unmarshal data ∅ s2 = ((unstructured, None), s3) ->
  Template_Execute tpl unstructured s3 = ((buf, None), s4) ->
  Template environment template s
  = (Returned (strings.TrimSpace buf, None), s4,
     [call_Template_Parse (v1.Template_ template); call_json_Marshal;
      call_json_Unmarshal data; call_Template_Execute]).
Proof.
  intros Hjs Ht HParse HMarshal HUnmarshal HExecute. dispatch. unfold_M.
  rewrite HParse; simpl. rewrite HMarshal; simpl. rewrite HUnmarshal; simpl.
  by rewrite HExecute.
Qed.

(** C8: on the expression path a value the program evaluates to is
    returned as [fmt.Sprint] prints it, with a nil error; an error of
    [Compile] or of [Run] is returned as it is, with the empty string. *)
Theorem Template_expression (environment : Map) (template : v1.Template)
    (s s1 : Store) (opts : Options) :
  v1.Javascript template = "" ->
  v1.Template_ template = "" ->
  v1.Expression template ≠ "" ->
  text_MakeExpressionOptions environment s = (opts, s1) ->
  (forall err s2,
      expr_Compile (v1.Expression template) opts s1 = (inr err, s2) ->
      Template environment template s
      = (Returned ("", Some err), s2,
         [call_MakeExpressionOptions;
          call_expr_Compile (v1.Expression template)]))
  /\ (forall program s2 envs s3 r s4,
      expr_Compile (v1.Expression template) opts s1 = (inl program, s2) ->
      text_MakeExpressionEnvs environment s2 = (envs, s3) ->
      expr_Run program envs s3 = (r, s4) ->
      Template environment template s
      = (Returned match r with
                  | inl output => (fmt_Sprint output, None)
                  | inr err => ("", Some err)
                  end, s4,
         [call_MakeExpressionOptions;
          call_expr_Compile (v1.Expression template);
          call_MakeExpressionEnvs; call_expr_Run])).
Proof.
  intros Hjs Ht He HOpts. dispatch. unfold_M. rewrite HOpts; simpl.
  split.
  - intros err s2 ->. done.
  - intros program s2 envs s3 r s4 -> -> ->. by destruct r.
Qed.

End TemplatePaths.

(** * The caller's map *)

Section Frame.
Context `{H : Host}.
Variable environment : Map.

Lemma preserves_ret {A} (a : A) : preserves environment (ret a).
Proof. by intros s. Qed.

Lemma preserves_panic {A} reason : preserves environment (panic (A := A) reason).
Proof. by intros s. Qed.

Lemma preserves_gets {A} (f : Store -> A) : preserves environment (gets f).
Proof. by intros s. Qed.

Lemma preserves_call {A} c (op : Store -> A * Store) :
  keeps environment op -> preserves environment (call c op).
Proof.
  intros Hop s. unfold call. specialize (Hop s). by destruct (op s).
Qed.

Lemma preserves_bind {A B} (m : M A) (f : A -> M B) :
  preserves environment m -> (forall a, preserves environment (f a)) ->
  preserves environment (bind m f).
Proof.
  intros Hm Hf s. unfold bind. specialize (Hm s).
  destruct (m s) as [[[a|reason] s1] c1]; simpl in *; [|done].
  specialize (Hf a s1). destruct (f a s1) as [[o s2] c2]; simpl in *.
  congruence.
Qed.

Lemma preserves_Set_each vm kvs :
  read_only environment -> preserves environment (Set_each vm kvs).
Proof.
  intros Hro. induction kvs as [|[k v] kvs IH]; simpl.
  - apply preserves_ret.
  - apply preserves_bind; [apply preserves_call, Hro|].
    intros [err|]; [apply preserves_ret|apply IH].
Qed.

(** The script path and the text-template path leave the caller's map as
    it is: the script path hands its values to the runtime one by one, the
    text-template path renders from a copy made through JSON. Values are
    compared as the map holds them; the object behind a value that is a
    reference belongs to the store, not to the map. *)
Lemma Template_script_text_keep_environment (template : v1.Template)
    (s : Store) :
  read_only environment ->
  v1.Javascript template ≠ "" \/ v1.Template_ template ≠ "" ->
  contents (Template environment template s).1.2 environment
  = contents s environment.
Proof.
  intros Hro Hsel. revert s.
  change (preserves environment (Template environment template)).
  unfold Template.
  destruct (decide (v1.Javascript template = "")) as [Hjs|Hjs].
  - destruct Hsel as [Hsel|Hsel]; [done|].
    rewrite (bool_decide_false (v1.Javascript template ≠ "")) by (by intros ?).
    rewrite (bool_decide_true (v1.Template_ template ≠ "")) by done.
    repeat first
      [ apply preserves_ret | apply preserves_call; apply Hro
      | apply preserves_bind; [|intros ?]
      | case_match ].
  - rewrite (bool_decide_true (v1.Javascript template ≠ "")) by done.
    repeat first
      [ apply preserves_ret | apply preserves_panic | apply preserves_gets
      | apply preserves_Set_each; exact Hro
      | apply preserves_call; apply Hro
      | apply preserves_bind; [|intros ?]
      | case_match ].
Qed.

(** C9: the expression path writes to the caller's map. [Template] hands
    the map itself, not a copy, to [text.MakeExpressionOptions] and
    [text.MakeExpressionEnvs], and the latter stores its function library
    in it. So when the expression compiles, [Template] returns (with a
    value or with the error of [Run]) and the caller's map holds every
    function under its name: a key [k] of the library that the map did not
    bind to that function before the call is bound to it after the call,
    and the map is no longer what the caller passed. *)
Theorem Template_expression_writes_environment (template : v1.Template)
    (s : Store) (funcs : gmap string Value) (k : string) (f : Value) :
  v1.Javascript template = "" ->
  v1.Template_ template = "" ->
  v1.Expression template ≠ "" ->
  registers environment funcs ->
  (forall program envs, keeps environment (expr_Run program envs)) ->
  funcs !! k = Some f ->
  contents s environment !! k ≠ Some f ->
  (forall opts s1,
      text_MakeExpressionOptions environment s = (opts, s1) ->
      exists program s2,
        expr_Compile (v1.Expression template) opts s1 = (inl program, s2)) ->
  exists r s' calls,
    Template environment template s = (Returned r, s', calls)
    /\ contents s' environment !! k = Some f
    /\ contents s' environment ≠ contents s environment.
Proof.
  intros Hjs Ht He Hreg Hrun Hk Hbefore Hcompile. dispatch. unfold_M.
  destruct (text_MakeExpressionOptions environment s) as [opts s1] eqn:Hopts.
  destruct (Hcompile opts s1 eq_refl) as (program & s2 & ->).
  pose proof (Hreg s2) as Hsub.
  destruct (text_MakeExpressionEnvs environment s2) as [envs s3]; simpl in Hsub.
  pose proof (Hrun program envs s3) as Hkeep.
  destruct (expr_Run program envs s3) as [o s4]; simpl in Hkeep.
  assert (contents s4 environment !! k = Some f) as Hafter.
  { rewrite Hkeep. by eapply lookup_weaken. }
  destruct o as [output|err]; eexists _, _, _; (split; [reflexivity|]);
    (split; [exact Hafter|]); intros Heq; by rewrite Heq in Hafter.
Qed.

End Frame.

(** * The small host meets the laws, and [Template] on it *)

Lemma mini_json_laws : @json_laws mini.host.
Proof.
  split.
  - intros m s data err s' Heq. simpl in Heq. unfold mini.Marshal in Heq.
    destruct (mini.json_of_entries _); by inversion Heq.
  - intros into s. by eexists _, _, _.
Qed.

Lemma mini_range_law : @range_law mini.host.
Proof. by intros s m. Qed.

Lemma mini_binding_fails k : @binding_fails mini.host k mini.VChan.
Proof. intros vm s. by eexists _, _. Qed.

Lemma mini_read_only : @read_only mini.host tt.
Proof.
  split; intros; intros s; simpl; try done.
  - unfold mini.Set_. by destruct v.
  - unfold mini.RunString. cases; done.
  - unfold mini.Marshal. by destruct (mini.json_of_entries _).
  - unfold mini.Unmarshal. cases; done.
  - unfold mini.Compile. by destruct (mini.atoms_of _).
  - unfold mini.Run. cases; done.
Qed.

Lemma mini_registers : @registers mini.host tt mini.funcs.
Proof. intros s. simpl. apply map_union_subseteq_l. Qed.

(** An environment that holds a channel: [Marshal] fails, and [Template]
    returns the error of [Unmarshal] without calling [Execute]. *)
Lemma Template_marshal_error_is_fatal_witness :
  (exists data err s2,
      @json_Marshal mini.host tt (mini.store_of mini.with_chan)
      = ((data, Some err), s2))
  /\ exists err s' calls,
      Template (H := mini.host) tt (v1.mkTemplate "" "Hello {{.name}}" "")
        (mini.store_of mini.with_chan)
      = (Returned ("", Some err), s', calls)
      /\ Forall (fun c => is_Execute c = false) calls.
Proof.
  split; [by eexists _, _, _|].
  apply Template_marshal_error_is_fatal;
    [exact mini_json_laws | reflexivity | discriminate |].
  intros tpl s1 Heq. vm_compute in Heq. inversion Heq; subst.
  by eexists _, _, _.
Defined.

(** The empty specification on the small host. *)
Lemma Template_all_empty_witness :
  Template (H := mini.host) tt (v1.mkTemplate "" "" "") (mini.store_of mini.ann)
  = (Returned ("", None), mini.store_of mini.ann, []).
Proof.
  apply (Template_all_empty (H := mini.host) tt (v1.mkTemplate "" "" "")
           (mini.store_of mini.ann)); reflexivity.
Defined.

(** The script [null] in an empty environment: its value exports as nil,
    its exported type is the nil type, and [Template] panics. *)
Lemma Template_script_nil_type_panics_witness :
  Template (H := mini.host) tt (v1.mkTemplate "null" "" "") (mini.store_of ∅)
  = (Panicked nil_dereference, mini.store_of ∅,
     [call_goja_New; call_Runtime_RunString "null"]).
Proof.
  apply (Template_script_nil_type_panics (H := mini.host) tt
           (v1.mkTemplate "null" "" "") (mini.store_of ∅) (mini.store_of ∅)
           (mini.store_of ∅) (mini.store_of ∅) tt [] mini.JNull);
    first [discriminate | reflexivity].
Defined.

(** The channel under the key [c] cannot be bound: [Template] returns the
    wrapped error for a key whose binding failed, and runs no script. *)
Lemma Template_binding_error_witness :
  mini.with_chan !! "c" = Some mini.VChan
  /\ exists k' v' err vm s0 s' calls,
      mini.with_chan !! k' = Some v'
      /\ mini.Set_ vm k' v' s0 = (Some err, s')
      /\ Template (H := mini.host) tt (v1.mkTemplate "name" "" "")
           (mini.store_of mini.with_chan)
         = (Returned ("", Some (errors_Wrapf err ("error setting " +:+ k'))),
            s', calls ++ [call_Runtime_Set k'])
      /\ Forall (fun c => is_RunString c = false) calls.
Proof.
  split; [reflexivity|].
  apply (Template_binding_error (H := mini.host) tt
           (v1.mkTemplate "name" "" "") (mini.store_of mini.with_chan)
           "c" mini.VChan);
    [exact mini_range_law | discriminate | reflexivity
    | exact (mini_binding_fails "c")].
Defined.

(** A body with an unclosed action: the error of [Parse] comes with the
    empty string. *)
Lemma Template_error_empty_string_witness :
  exists str err s' calls,
    Template (H := mini.host) tt (v1.mkTemplate "" "Hello {{.name" "")
      (mini.store_of mini.ann)
    = (Returned (str, Some err), s', calls)
    /\ str = "".
Proof.
  eexists _, _, _, _. split; [vm_compute; reflexivity|].
  eapply (Template_error_empty_string (H := mini.host) tt
            (v1.mkTemplate "" "Hello {{.name" "") (mini.store_of mini.ann)).
  vm_compute. reflexivity.
Defined.

(** Template path: environment [{"name": "Ann"}] and body
    ["  Hello {{.name}}  \n"] give ["Hello Ann"] and no error. *)
Lemma Template_text_trimmed_witness :
  Template (H := mini.host) tt
    (v1.mkTemplate "" ("  Hello {{.name}}  " +:+ LF) "") (mini.store_of mini.ann)
  = (Returned ("Hello Ann", None), mini.store_of mini.ann,
     [call_Template_Parse ("  Hello {{.name}}  " +:+ LF); call_json_Marshal;
      call_json_Unmarshal
        ("{" +:+ mini.json_string "name" +:+ ":" +:+ mini.json_string "Ann"
         +:+ "}");
      call_Template_Execute]).
Proof.
  apply (Template_text_trimmed (H := mini.host) tt
           (v1.mkTemplate "" ("  Hello {{.name}}  " +:+ LF) "")
           (mini.store_of mini.ann) (mini.store_of mini.ann) (mini.store_of mini.ann)
           (mini.store_of mini.ann) (mini.store_of mini.ann)
           [mini.Text "  Hello "; mini.Field "name"; mini.Text ("  " +:+ LF)]
           _ None mini.ann ("  Hello Ann  " +:+ LF));
    first [discriminate | vm_compute; reflexivity].
Defined.

(** Expression path: [{"a": 2, "b": 3}] and ["a + b"] give ["5"]; an
    error of [Compile] and an error of [Run] come back as they are. The
    store after the call is the one the helpers leave, with the function
    library in the map. *)
Lemma Template_expression_witness :
  let after := mini.store_of (mini.funcs ∪ mini.ab) in
  Template (H := mini.host) tt (v1.mkTemplate "" "" "a + b") (mini.store_of mini.ab)
  = (Returned ("5", None), after,
     [call_MakeExpressionOptions; call_expr_Compile "a + b";
      call_MakeExpressionEnvs; call_expr_Run])
  /\ Template (H := mini.host) tt (v1.mkTemplate "" "" "a + c")
       (mini.store_of mini.ab)
     = (Returned ("", Some (errors_New "undefined: c")), after,
        [call_MakeExpressionOptions; call_expr_Compile "a + c";
         call_MakeExpressionEnvs; call_expr_Run])
  /\ Template (H := mini.host) tt (v1.mkTemplate "" "" "a +")
       (mini.store_of mini.ab)
     = (Returned ("", Some (errors_New "unexpected token (1:1)")), after,
        [call_MakeExpressionOptions; call_expr_Compile "a +"]).
Proof.
  intros after. split; [|split].
  - refine (proj2 (Template_expression (H := mini.host) tt
              (v1.mkTemplate "" "" "a + b") (mini.store_of mini.ab)
              after tt _ _ _ _)
              [mini.AVar "a"; mini.AVar "b"] after (mini.funcs ∪ mini.ab)
              after (inl (mini.VInt 5)) after _ _ _);
      first [discriminate | vm_compute; reflexivity].
  - refine (proj2 (Template_expression (H := mini.host) tt
              (v1.mkTemplate "" "" "a + c") (mini.store_of mini.ab)
              after tt _ _ _ _)
              [mini.AVar "a"; mini.AVar "c"] after (mini.funcs ∪ mini.ab)
              after (inr (errors_New "undefined: c")) after _ _ _);
      first [discriminate | vm_compute; reflexivity].
  - refine (proj1 (Template_expression (H := mini.host) tt
              (v1.mkTemplate "" "" "a +") (mini.store_of mini.ab)
              after tt _ _ _ _)
              (errors_New "unexpected token (1:1)") after _);
      first [discriminate | vm_compute; reflexivity].
Defined.

(** The environment [{"a": 2, "b": 3}] and the expression ["a + b"]: the
    map has no key [ftoa] before the call; the call returns ["5"], and the
    caller's map holds the function under [ftoa] afterwards. *)
Lemma Template_expression_writes_environment_witness :
  mini.ab !! "ftoa" = None
  /\ Template (H := mini.host) tt (v1.mkTemplate "" "" "a + b")
       (mini.store_of mini.ab)
     = (Returned ("5", None), mini.store_of (mini.funcs ∪ mini.ab),
        [call_MakeExpressionOptions; call_expr_Compile "a + b";
         call_MakeExpressionEnvs; call_expr_Run])
  /\ exists r s' calls,
       Template (H := mini.host) tt (v1.mkTemplate "" "" "a + b")
         (mini.store_of mini.ab)
       = (Returned r, s', calls)
       /\ mini.env s' !! "ftoa" = Some mini.VFunc
       /\ mini.env s' ≠ mini.ab.
Proof.
  split; [reflexivity|]. split; [vm_compute; reflexivity|].
  apply (Template_expression_writes_environment (H := mini.host) tt
           (v1.mkTemplate "" "" "a + b") (mini.store_of mini.ab) mini.funcs
           "ftoa" mini.VFunc);
    [reflexivity | reflexivity | discriminate | exact mini_registers
    | apply mini_read_only | reflexivity | discriminate |].
  intros opts s1 Heq. vm_compute in Heq. inversion Heq; subst.
  by eexists _, _.
Defined.

(** The specification with all three fields populated: the script is
    selected, the runtime is created, and the call is the one on the
    specification with the script alone. *)
Lemma Template_first_match_wins_witness :
  selected (v1.mkTemplate "7" "t" "a + b") = Some Script
  /\ Template (H := mini.host) tt (v1.mkTemplate "7" "t" "a + b")
       (mini.store_of mini.ab)
     = Template (H := mini.host) tt (v1.mkTemplate "7" "" "")
         (mini.store_of mini.ab)
  /\ Forall (fun c => Some (engine_of c) = Some Script)
       (Template (H := mini.host) tt (v1.mkTemplate "7" "t" "a + b")
          (mini.store_of mini.ab)).2
  /\ exists calls,
       (Template (H := mini.host) tt (v1.mkTemplate "7" "t" "a + b")
          (mini.store_of mini.ab)).2
       = [call_goja_New] ++ calls.
Proof.
  split; [reflexivity|].
  exact (Template_first_match_wins (H := mini.host) tt
           (v1.mkTemplate "7" "t" "a + b") (mini.store_of mini.ab)).
Defined.

(** The specification's precedence test on the small host: each engine
    gives an output of its own, and the first populated field decides. *)
Example Template_precedence_example :
  let run t := (Template (H := mini.host) tt t (mini.store_of mini.ab)).1.1 in
  run (v1.mkTemplate "7" "t" "a + b")
  = Returned ("", Some (fmt_Errorf
      "failed to cast output to string; it is of type int64"))
  /\ run (v1.mkTemplate "" "t" "a + b") = Returned ("t", None)
  /\ run (v1.mkTemplate "" "" "a + b") = Returned ("5", None).
Proof. vm_compute. auto. Qed.

(** * Properties of [FetchCosts] *)

Section CostProperties.
Context `{C : aws.Cloud}.

(** C10: when the steps before the query succeed and [Scan] of the result
    row fails, [FetchCosts] returns the zero-valued [periodicCosts] and a
    nil error: the error of [Scan] is dropped, and so is whatever [Scan]
    had written to the destinations before it failed. *)
Theorem FetchCosts_scan_error_swallowed (ctx : aws.ScrapeContext)
    (config : v1aws.AWS aws.AWSConnection) (ci : models.ConfigItem)
    (attrs : aws.productAttributes) (athenaConf : aws.AthenaConfig)
    (athenaDB : aws.DB) (written : aws.periodicCosts) (err : error) :
  aws.getProductAttributes ci = Returned (attrs, None) ->
  aws.getAWSAthenaConfig ctx config = Returned (inl athenaConf) ->
  aws.sql_Open aws.athena_DriverName (aws.Config_Stringify athenaConf)
  = inl athenaDB ->
  aws.Row_Scan
    (aws.DB_QueryRow athenaDB (aws.costQuery config) (aws.queryArgs attrs))
    aws.zero_costs
  = (written, Some err) ->
  aws.FetchCosts ctx config ci
  = Returned ({| aws.Hourly := 0; aws.Daily := 0; aws.Weekly := 0;
                 aws.Monthly := 0 |}, None).
Proof.
  intros Hattrs Hconf Hopen Hscan. unfold aws.FetchCosts.
  rewrite Hattrs; simpl. rewrite Hconf; simpl. rewrite Hopen.
  by rewrite Hscan.
Qed.

End CostProperties.

(** The instance [i-0def] of the small database has an hourly cost and
    NULL in the other columns: [Scan] writes the hourly cost, fails on the
    next column, and [FetchCosts] reports no cost at all and no error. *)
Lemma FetchCosts_scan_error_swallowed_witness :
  mini_aws.Scan [Some 0.25; None; None; None]%float aws.zero_costs
  = ({| aws.Hourly := 0.25; aws.Daily := 0; aws.Weekly := 0;
        aws.Monthly := 0 |}, Some mini_aws.null_error)
  /\ aws.FetchCosts (C := mini_aws.cloud) tt mini_aws.sample_config
       (mini_aws.instance "i-0def")
     = Returned ({| aws.Hourly := 0; aws.Daily := 0; aws.Weekly := 0;
                    aws.Monthly := 0 |}, None).
Proof.
  split; [reflexivity|].
  apply (FetchCosts_scan_error_swallowed (C := mini_aws.cloud) tt
           mini_aws.sample_config (mini_aws.instance "i-0def")
           {| aws.ResourceID := "i-0def"; aws.ProductCode := "AmazonEC2" |}
           "s3://reports?region=eu-west-1&accessID=AKIA"
           {[ "i-0abc" := [Some 0.5; Some 12; Some 84; Some 360];
              "i-0def" := [Some 0.25; None; None; None] ]}%float
           {| aws.Hourly := 0.25; aws.Daily := 0; aws.Weekly := 0;
              aws.Monthly := 0 |} mini_aws.null_error);
    vm_compute; reflexivity.
Defined.

(** * More on [strings.TrimSpace] and [strings.Split] *)

Section Strings.
Implicit Types s l p r : list N.

Lemma bytes_of_string_app (a b : string) :
  bytes_of_string (a +:+ b) = bytes_of_string a ++ bytes_of_string b.
Proof.
  unfold bytes_of_string. induction a as [|c a IH]; [done|].
  change (String c a +:+ b) with (String c (a +:+ b)).
  simpl. f_equal. exact IH.
Qed.

Lemma string_of_bytes_of_string (a : string) :
  string_of_bytes (bytes_of_string a) = a.
Proof.
  unfold string_of_bytes, bytes_of_string. induction a as [|c a IH]; [done|].
  simpl. rewrite ascii_N_embedding. f_equal. exact IH.
Qed.

Lemma string_of_bytes_app l r :
  string_of_bytes (l ++ r) = string_of_bytes l +:+ string_of_bytes r.
Proof.
  unfold string_of_bytes. induction l as [|c l IH]; [done|].
  simpl. etransitivity; [|symmetry; apply (eq_refl : String _ (_ +:+ _) = _)].
  f_equal. exact IH.
Qed.

Lemma asciiSpace_ascii c :
  strings.asciiSpace c = true -> (utf8.RuneSelf <=? c)%N = false.
Proof.
  unfold strings.asciiSpace. rewrite !orb_true_iff, !N.eqb_eq.
  intros Hc. by repeat destruct Hc as [Hc| ->]; [subst c| | | | |].
Qed.

Lemma stops_trim_ascii c : stops_trim c -> (utf8.RuneSelf <=? c)%N = false.
Proof. intros [Hlt _]. apply N.leb_gt. by apply N.ltb_lt. Qed.

Lemma TrimSpace_start_spaces l s :
  spaces l -> strings.TrimSpace_start (l ++ s) = strings.TrimSpace_start s.
Proof.
  induction 1 as [|c l Hc _ IH]; simpl; [done|].
  by rewrite (asciiSpace_ascii c Hc), Hc.
Qed.

Lemma TrimSpace_stop_spaces p r k :
  spaces r -> k <= length r ->
  strings.TrimSpace_stop (p ++ r) (length p + k)
  = strings.TrimSpace_stop (p ++ r) (length p).
Proof.
  intros Hr. induction k as [|k IH]; intros Hk.
  { by rewrite Nat.add_0_r. }
  rewrite Nat.add_succ_r. cbn [strings.TrimSpace_stop].
  destruct (lookup_lt_is_Some_2 r k) as [c Hc]; [lia|].
  assert (byte_at (p ++ r) (length p + k) = c) as ->.
  { unfold byte_at. rewrite nth_lookup, lookup_app_r by lia.
    replace (length p + k - length p) with k by lia. by rewrite Hc. }
  pose proof (Forall_lookup_1 _ _ _ _ Hr Hc) as Hspace; simpl in Hspace.
  rewrite (asciiSpace_ascii c Hspace), Hspace. apply IH. lia.
Qed.

Lemma TrimSpace_stop_last p r c :
  last p = Some c -> stops_trim c ->
  strings.TrimSpace_stop (p ++ r) (length p) = p.
Proof.
  intros Hlast Hc. destruct (last_Some p c) as [[p' ->] _]; [done|].
  rewrite length_app; simpl. rewrite Nat.add_1_r. cbn [strings.TrimSpace_stop].
  assert (byte_at ((p' ++ [c]) ++ r) (length p') = c) as ->.
  { unfold byte_at. rewrite nth_lookup, <-(assoc_L (++)).
    by rewrite lookup_app_r, Nat.sub_diag by lia. }
  rewrite (stops_trim_ascii c Hc). destruct Hc as [_ ->].
  rewrite <-(assoc_L (++)). rewrite take_app_ge by lia.
  replace (S (length p') - length p') with 1 by lia. simpl.
  by rewrite take_0.
Qed.

(** [TrimSpace] takes off exactly the ASCII spaces around bytes that
    start and end with a byte that is ASCII and no space. *)
Lemma TrimSpace_start_exact l p r :
  spaces l -> spaces r -> trimmed p ->
  strings.TrimSpace_start (l ++ p ++ r) = p.
Proof.
  intros Hl Hr Hp. rewrite (TrimSpace_start_spaces l _ Hl).
  destruct Hp as [->|[(c & Hhead & Hc) (c' & Hlast & Hc')]].
  { simpl. rewrite <-(app_nil_r r). by rewrite (TrimSpace_start_spaces r [] Hr). }
  destruct p as [|c0 p]; [done|]. simpl in Hhead. simplify_eq.
  cbn [app strings.TrimSpace_start].
  rewrite (stops_trim_ascii c Hc). destruct Hc as [_ ->].
  change (c :: p ++ r) with ((c :: p) ++ r).
  rewrite length_app, (TrimSpace_stop_spaces (c :: p) r (length r) Hr) by done.
  by apply (TrimSpace_stop_last (c :: p) r c').
Qed.

Lemma TrimSpace_exact (l p r : string) :
  spaces (bytes_of_string l) -> spaces (bytes_of_string r) ->
  trimmed (bytes_of_string p) ->
  strings.TrimSpace (l +:+ p +:+ r) = p.
Proof.
  intros Hl Hr Hp. unfold strings.TrimSpace.
  rewrite !bytes_of_string_app, (TrimSpace_start_exact _ _ _ Hl Hr Hp).
  apply string_of_bytes_of_string.
Qed.

End Strings.

Section SplitLines.

Lemma length_bytes_of_string (a : string) :
  length (bytes_of_string a) = String.length a.
Proof.
  unfold bytes_of_string. induction a as [|c a IH]; [done|].
  simpl. f_equal. exact IH.
Qed.

Lemma CutPrefix_nil (s : list N) : strings.CutPrefix s [] = Some s.
Proof. by destruct s. Qed.

(** The first piece [Split] cuts at line feeds: the bytes before the
    first line feed. *)
Lemma Split_go_LF_first fuel (s cur : list N) :
  length s < fuel ->
  exists first rest,
    s = first ++ rest
    /\ Forall (fun c => c ≠ 10%N) first
    /\ (rest = [] \/ head rest = Some 10%N)
    /\ hd [] (strings.Split_go fuel s [10%N] cur) = rev cur ++ first.
Proof.
  revert s cur. induction fuel as [|fuel IH]; intros s cur Hlt; [lia|].
  destruct s as [|c s]; cbn [strings.Split_go strings.CutPrefix].
  { exists [], [].
    split; [done|]. split; [constructor|]. split; [by left|].
    by rewrite app_nil_r. }
  destruct (N.eqb_spec 10 c) as [<-|Hne]; cbn [hd].
  - exists [], (10%N :: s).
    split; [done|]. split; [constructor|]. split; [by right|].
    by rewrite CutPrefix_nil, app_nil_r.
  - destruct (IH s (c :: cur)) as (first & rest & -> & Hfirst & Hrest & ->);
      [simpl in Hlt; lia|].
    exists (c :: first), rest. simpl. rewrite <-(assoc_L (++)).
    split; [done|]. split; [constructor; [congruence|done]|]. by split.
Qed.

Lemma Split_LF_first (body : string) :
  exists first rest,
    bytes_of_string body = first ++ rest
    /\ Forall (fun c => c ≠ 10%N) first
    /\ (rest = [] \/ head rest = Some 10%N)
    /\ hd "" (strings.Split body LF) = string_of_bytes first.
Proof.
  destruct (Split_go_LF_first (S (String.length body)) (bytes_of_string body) [])
    as (first & rest & Heq & Hfirst & Hrest & Hhd).
  { rewrite length_bytes_of_string. lia. }
  exists first, rest. split; [done|]. split; [done|]. split; [done|].
  unfold strings.Split. change (bytes_of_string LF) with [10%N].
  destruct (strings.Split_go _ _ _ _); simpl in *; by subst.
Qed.

End SplitLines.

(** * More on [Template] *)

Section TemplateMore.
Context `{H : Host}.

Lemma Set_each_all vm kvs s :
  (forall k v s0, (k, v) ∈ kvs -> (Runtime_Set vm k v s0).1 = None) ->
  exists s', Set_each vm kvs s
             = (Returned None, s', call_Runtime_Set <$> kvs.*1).
Proof.
  revert s. induction kvs as [|[k v] kvs IH]; intros s Hok; simpl.
  { by eexists. }
  unfold_M. pose proof (Hok k v s (list_elem_of_here _ _)) as HSet.
  destruct (Runtime_Set vm k v s) as [e s1]; simpl in *; subst.
  destruct (IH s1) as [s' ->]. { intros. apply Hok. by right. }
  by eexists.
Qed.

(** On the script path, when no entry of the environment fails to bind,
    [Template] creates one runtime, binds every key of the environment
    once (in the order the map is ranged over), then runs the script once;
    it makes no other call, whatever the script's outcome. *)
Theorem Template_script_binds_every_entry (environment : Map)
    (template : v1.Template) (s : Store) :
  range_law ->
  v1.Javascript template ≠ "" ->
  (forall vm k v s0,
      contents (goja_New s).2 environment !! k = Some v ->
      (Runtime_Set vm k v s0).1 = None) ->
  exists keys,
    keys ≡ₚ (map_to_list (contents (goja_New s).2 environment)).*1
    /\ NoDup keys
    /\ (Template environment template s).2
       = call_goja_New :: (call_Runtime_Set <$> keys)
         ++ [call_Runtime_RunString (v1.Javascript template)].
Proof.
  intros Hrange Hjs Hok. dispatch. unfold_M.
  destruct (goja_New s) as [vm s1]; simpl in *.
  exists (range s1 environment).*1.
  assert ((range s1 environment).*1
          ≡ₚ (map_to_list (contents s1 environment)).*1) as Hperm.
  { by rewrite (Hrange s1 environment). }
  split; [done|]. split.
  { rewrite Hperm. apply NoDup_fst_map_to_list. }
  destruct (Set_each_all vm (range s1 environment) s1) as [s2 ->].
  { intros k v s0 Hin. apply Hok.
    rewrite (Hrange s1 environment) in Hin. by apply elem_of_map_to_list. }
  simpl. cases; done.
Qed.

(** On the text-template path the calls are an initial part of [Parse],
    [Marshal], [Unmarshal], [Execute]: each is made at most once and in
    this order. A body that does not parse is reported with the error of
    [Parse] as it is, and nothing is marshalled. *)
Theorem Template_text_calls_in_order (environment : Map)
    (template : v1.Template) (s : Store) :
  v1.Javascript template = "" ->
  v1.Template_ template ≠ "" ->
  (exists data,
      (Template environment template s).2
      `prefix_of` [call_Template_Parse (v1.Template_ template);
                   call_json_Marshal; call_json_Unmarshal data;
                   call_Template_Execute])
  /\ forall err s1,
      Template_Parse text_GetTemplateFuncs (v1.Template_ template) s
      = (inr err, s1) ->
      Template environment template s
      = (Returned ("", Some err), s1,
         [call_Template_Parse (v1.Template_ template)]).
Proof.
  intros Hjs Ht. dispatch. unfold_M. split.
  - destruct (Template_Parse _ _ s) as [[tpl|err] s1]; simpl.
    2: { exists "". by eexists [_; _; _]. }
    destruct (json_Marshal environment s1) as [[data merr] s2]; simpl.
    exists data.
    destruct (json_Unmarshal data ∅ s2) as [[u [err|]] s3]; simpl.
    { by eexists [_]. }
    destruct (Template_Execute tpl u s3) as [[buf [err|]] s4]; simpl;
      by exists [].
  - by intros err s1 ->.
Qed.

(** When [Execute] fails, the error message holds the first line of the
    template body (the bytes before its first line feed) and the message
    of the cause; what [Execute] had written to the buffer is dropped. *)
Theorem Template_execute_error_first_line (environment : Map)
    (template : v1.Template) (s s1 s2 s3 s4 : Store) (tpl : Tmpl)
    (data : string) (merr : option error) (unstructured : gmap string Value)
    (buf : string) (err : error) :
  v1.Javascript template = "" ->
  v1.Template_ template ≠ "" ->
  Template_Parse text_GetTemplateFuncs (v1.Template_ template) s
  = (inl tpl, s1) ->
  json_Marshal environment s1 = ((data, merr), s2) ->
  json_Unmarshal data ∅ s2 = ((unstructured, None), s3) ->
  Template_Execute tpl unstructured s3 = ((buf, Some err), s4) ->
  exists first rest,
    bytes_of_string (v1.Template_ template) = first ++ rest
    /\ Forall (fun c => c ≠ 10%N) first
    /\ (rest = [] \/ head rest = Some 10%N)
    /\ (Template environment template s).1.1
       = Returned ("", Some (fmt_Errorf
           ("error executing template " +:+ string_of_bytes first
            +:+ ": " +:+ Error err))).
Proof.
  intros Hjs Ht HParse HMarshal HUnmarshal HExecute.
  destruct (Split_LF_first (v1.Template_ template))
    as (first & rest & Heq & Hfirst & Hrest & Hhd).
  exists first, rest. split; [done|]. split; [done|]. split; [done|].
  dispatch. unfold_M.
  rewrite HParse; simpl. rewrite HMarshal; simpl. rewrite HUnmarshal; simpl.
  rewrite HExecute; simpl. by rewrite Hhd.
Qed.

(** On the text-template path, a rendered buffer that is ASCII spaces,
    then bytes that start and end with an ASCII byte that is no space,
    then ASCII spaces, gives exactly the bytes between. *)
Theorem Template_text_strips_ascii_spaces (environment : Map)
    (template : v1.Template) (s s1 s2 s3 s4 : Store) (tpl : Tmpl)
    (data : string) (merr : option error) (unstructured : gmap string Value)
    (l p r : string) :
  v1.Javascript template = "" ->
  v1.Template_ template ≠ "" ->
  Template_Parse text_GetTemplateFuncs (v1.Template_ template) s
  = (inl tpl, s1) ->
  json_Marshal environment s1 = ((data, merr), s2) ->
  json_Unmarshal data ∅ s2 = ((unstructured, None), s3) ->
  Template_Execute tpl unstructured s3 = ((l +:+ p +:+ r, None), s4) ->
  spaces (bytes_of_string l) ->
  spaces (bytes_of_string r) ->
  trimmed (bytes_of_string p) ->
  (Template environment template s).1.1 = Returned (p, None).
Proof.
  intros Hjs Ht HParse HMarshal HUnmarshal HExecute Hl Hr Hp.
  dispatch. unfold_M.
  rewrite HParse; simpl. rewrite HMarshal; simpl. rewrite HUnmarshal; simpl.
  rewrite HExecute; simpl. by rewrite (TrimSpace_exact l p r Hl Hr Hp).
Qed.

End TemplateMore.

(** * The shared-library loader *)

Section Loader.
Context `{F : library.Files}.

Lemma TrimSpace_trimmed (p : string) :
  trimmed (bytes_of_string p) -> strings.TrimSpace p = p.
Proof.
  intros Hp. unfold strings.TrimSpace.
  pose proof (TrimSpace_start_exact [] (bytes_of_string p) []) as Heq.
  simpl in Heq. rewrite app_nil_r in Heq.
  rewrite Heq by (done || constructor). apply string_of_bytes_of_string.
Qed.

(** ASCII spaces around the path of a shared library do not matter: the
    file read, the name the script runs under, the result and the store
    are those of the bare path. *)
Theorem LoadSharedLibrary_ignores_spaces (vm : Runtime) (l p r : string)
    (s : Store) :
  spaces (bytes_of_string l) ->
  spaces (bytes_of_string r) ->
  trimmed (bytes_of_string p) ->
  library.LoadSharedLibrary vm (l +:+ p +:+ r) s
  = library.LoadSharedLibrary vm p s.
Proof.
  intros Hl Hr Hp. unfold library.LoadSharedLibrary.
  by rewrite (TrimSpace_exact l p r Hl Hr Hp), (TrimSpace_trimmed p Hp).
Qed.

End Loader.

(** * More on cost.go *)

Section CostMore.
Context `{C : aws.Cloud}.

Ltac attrs_cases :=
  unfold aws.getProductAttributes, aws.attributes, aws.getJSONKey,
    aws.deref, aws.index0, aws.and_then in *;
  repeat (case_match; simpl in *; simplify_eq).

(** [getProductAttributes] returns an error for one kind of item only: a
    cluster (its type is [AWSEKSCluster] and not [AWSEC2Instance]) whose
    configuration [json.Unmarshal] rejects; the error is that of
    [Unmarshal], and the attributes are empty. *)
Theorem getProductAttributes_error_only_for_cluster (ci : models.ConfigItem)
    (attrs : aws.productAttributes) (err : error) :
  aws.getProductAttributes ci = Returned (attrs, Some err) ->
  exists t body,
    models.ExternalType ci = Some t
    /\ String.eqb t aws.AWSEC2Instance = false
    /\ String.eqb t aws.AWSEKSCluster = true
    /\ models.Config ci = Some body
    /\ (aws.json_Unmarshal body).2 = Some err
    /\ attrs = {| aws.ResourceID := ""; aws.ProductCode := "" |}.
Proof.
  intros Heq. attrs_cases. eexists _, _. repeat split; eauto.
  by match goal with Hj : aws.json_Unmarshal _ = _ |- _ => rewrite Hj end.
Qed.

(** A cluster whose configuration is valid JSON but holds no string under
    the key [arn] (the key is missing, or its value is no string) makes
    [getProductAttributes] panic on the assertion [arn.(string)]; the
    panic names the dynamic type of what the key holds, [nil] when the key
    is missing. *)
Theorem getProductAttributes_cluster_without_arn_panics
    (ci : models.ConfigItem) (t body : string) (j : gmap string aws.Value) :
  models.ExternalType ci = Some t ->
  String.eqb t aws.AWSEC2Instance = false ->
  String.eqb t aws.AWSEKSCluster = true ->
  models.Config ci = Some body ->
  aws.json_Unmarshal body = (j, None) ->
  aws.string_of_Value (default aws.nil (j !! "arn")) = None ->
  aws.getProductAttributes ci
  = Panicked ("interface conversion: interface {} is "
              +:+ aws.Value_type (default aws.nil (j !! "arn"))
              +:+ ", not string").
Proof.
  intros Ht Hec2 Heks Hbody Hj Harn.
  unfold aws.getProductAttributes, aws.getJSONKey. rewrite Ht; simpl.
  rewrite Hec2, Heks, Hbody; simpl. rewrite Hj. by rewrite Harn.
Qed.

(** An item of a resource type outside the seven the switch names is not
    rejected: its attributes are empty and the error is nil, so
    [FetchCosts] goes on and queries with an empty resource id and an
    empty product code. *)
Theorem FetchCosts_unknown_type_queries_empty (ctx : aws.ScrapeContext)
    (config : v1aws.AWS aws.AWSConnection) (ci : models.ConfigItem)
    (t : string) (athenaConf : aws.AthenaConfig) (athenaDB : aws.DB) :
  models.ExternalType ci = Some t ->
  Forall (fun known => String.eqb t known = false)
    [aws.AWSEC2Instance; aws.AWSEKSCluster; aws.AWSS3Bucket;
     aws.AWSLoadBalancer; aws.AWSLoadBalancerV2; aws.AWSEBSVolume;
     aws.AWSRDSInstance] ->
  aws.getAWSAthenaConfig ctx config = Returned (inl athenaConf) ->
  aws.sql_Open aws.athena_DriverName (aws.Config_Stringify athenaConf)
  = inl athenaDB ->
  aws.getProductAttributes ci
  = Returned ({| aws.ResourceID := ""; aws.ProductCode := "" |}, None)
  /\ aws.FetchCosts ctx config ci
     = match aws.Row_Scan
               (aws.DB_QueryRow athenaDB (aws.costQuery config)
                  [aws.Named "id" ""; aws.Named "product_code" ""])
               aws.zero_costs with
       | (_, Some _) => Returned (aws.zero_costs, None)
       | (costs, None) => Returned (costs, None)
       end.
Proof.
  intros Ht Hknown Hconf Hopen.
  assert (aws.getProductAttributes ci
          = Returned ({| aws.ResourceID := ""; aws.ProductCode := "" |}, None))
    as Hattrs.
  { unfold aws.getProductAttributes. rewrite Ht; simpl.
    repeat (apply Forall_cons in Hknown as [-> Hknown]). done. }
  split; [done|]. unfold aws.FetchCosts. rewrite Hattrs; simpl.
  rewrite Hconf; simpl. rewrite Hopen. by destruct (aws.Row_Scan _ _) as [? [?|]].
Qed.

(** Whatever the item, the product code [getProductAttributes] returns is
    one of six fixed codes, or empty (on an error and for a type it has no
    case for). *)
Theorem getProductAttributes_product_code (ci : models.ConfigItem)
    (attrs : aws.productAttributes) (e : option error) :
  aws.getProductAttributes ci = Returned (attrs, e) ->
  aws.ProductCode attrs ∈ "" :: product_codes.
Proof.
  intros Heq. unfold product_codes. attrs_cases; set_solver.
Qed.

(** What [FetchCosts] can return: with an error, the costs are zero and
    the error is that of [getProductAttributes], of [getAWSAthenaConfig] or
    of [sql.Open], never that of the query; with a nil error, the costs are
    those a successful [Scan] wrote, or zero after a failed one. *)
Theorem FetchCosts_returns (ctx : aws.ScrapeContext)
    (config : v1aws.AWS aws.AWSConnection) (ci : models.ConfigItem)
    (costs : aws.periodicCosts) (e : option error) :
  aws.FetchCosts ctx config ci = Returned (costs, e) ->
  match e with
  | Some err =>
    costs = aws.zero_costs
    /\ ((exists attrs, aws.getProductAttributes ci = Returned (attrs, Some err))
        \/ aws.getAWSAthenaConfig ctx config = Returned (inr err)
        \/ exists athenaConf,
            aws.getAWSAthenaConfig ctx config = Returned (inl athenaConf)
            /\ aws.sql_Open aws.athena_DriverName
                 (aws.Config_Stringify athenaConf) = inr err)
  | None =>
    exists attrs athenaConf athenaDB written scan_err,
      aws.getProductAttributes ci = Returned (attrs, None)
      /\ aws.getAWSAthenaConfig ctx config = Returned (inl athenaConf)
      /\ aws.sql_Open aws.athena_DriverName (aws.Config_Stringify athenaConf)
         = inl athenaDB
      /\ aws.Row_Scan
           (aws.DB_QueryRow athenaDB (aws.costQuery config)
              (aws.queryArgs attrs)) aws.zero_costs
         = (written, scan_err)
      /\ costs = match scan_err with
                 | None => written
                 | Some _ => aws.zero_costs
                 end
  end.
Proof.
  unfold aws.FetchCosts. intros Heq.
  destruct (aws.getProductAttributes ci) as [[attrs [err|]]|] eqn:Hattrs;
    simpl in *; simplify_eq.
  { split; [done|]. left. by eexists. }
  destruct (aws.getAWSAthenaConfig ctx config) as [[athenaConf|err]|]
    eqn:Hconf; simpl in *; simplify_eq.
  2: { split; [done|]. by right; left. }
  destruct (aws.sql_Open _ _) as [athenaDB|err] eqn:Hopen; simplify_eq.
  2: { split; [done|]. right; right. by eexists. }
  destruct (aws.Row_Scan _ _) as [written [scan_err|]] eqn:Hscan; simplify_eq;
    by eexists _, _, _, _, _.
Qed.

End CostMore.

Section Query.
Context `{C : aws.Cloud}.

Lemma ReplaceAll_go_template (new : list N) :
  strings.ReplaceAll_go (S (String.length aws.costQueryTemplate))
    (bytes_of_string aws.costQueryTemplate) (bytes_of_string "$table") new
  = take 102 (bytes_of_string aws.costQueryTemplate) ++ new
    ++ take 199 (drop 108 (bytes_of_string aws.costQueryTemplate)) ++ new
    ++ drop 313 (bytes_of_string aws.costQueryTemplate).
Proof. vm_compute. reflexivity. Qed.

(** The query [FetchCosts] sends is the template with its two
    placeholders replaced by [Database.Table], written as it is (nothing is
    quoted or escaped), and the rest of the template unchanged: the text
    put in is not scanned again, whatever it holds. *)
Theorem costQuery_splices_table :
  exists a b c : string,
    aws.costQueryTemplate = a +:+ "$table" +:+ b +:+ "$table" +:+ c
    /\ Forall (fun x => x ≠ 36%N)
         (bytes_of_string a ++ bytes_of_string b ++ bytes_of_string c)
    /\ forall config : v1aws.AWS aws.AWSConnection,
        aws.costQuery config
        = a +:+ (v1aws.Database (v1aws.Reporting config) +:+ "."
                 +:+ v1aws.Table (v1aws.Reporting config))
          +:+ b +:+ (v1aws.Database (v1aws.Reporting config) +:+ "."
                     +:+ v1aws.Table (v1aws.Reporting config))
          +:+ c.
Proof.
  exists (string_of_bytes (take 102 (bytes_of_string aws.costQueryTemplate))),
    (string_of_bytes
       (take 199 (drop 108 (bytes_of_string aws.costQueryTemplate)))),
    (string_of_bytes (drop 313 (bytes_of_string aws.costQueryTemplate))).
  split; [vm_compute; reflexivity|]. split.
  - apply Forall_forall. intros x Hx ->. revert Hx.
    apply (bool_decide_unpack _). vm_compute. exact I.
  - intros config. unfold aws.costQuery, strings.ReplaceAll.
    rewrite ReplaceAll_go_template, !string_of_bytes_app.
    by rewrite !string_of_bytes_of_string.
Qed.

End Query.

(** * The cost scraper *)

Section ScrapeProperties.
Context `{S : CostScraper.Scraping}.

Lemma and_then_Returned {A} (o : outcome A) : aws.and_then o Returned = o.
Proof. by destruct o. Qed.

Lemma scrape_items_fetched ctx awsConfig configItems results :
  Forall (returns ctx awsConfig) configItems ->
  CostScraper.scrape_items ctx awsConfig configItems results
  = Returned (results ++ omap (fetched ctx awsConfig) configItems).
Proof.
  intros Hreturns. revert results.
  induction Hreturns as [|configItem rest [[costs e] Hr] _ IH];
    intros results; simpl.
  { by rewrite app_nil_r. }
  unfold fetched at 1. rewrite Hr; simpl. destruct e as [err|].
  - apply IH.
  - rewrite IH. by rewrite <-(assoc_L (++)).
Qed.

Lemma scrape_items_panics ctx awsConfig configItems configItem reason results :
  configItem ∈ configItems ->
  aws.FetchCosts ctx (CostScraper.Config awsConfig) configItem
  = Panicked reason ->
  exists reason',
    CostScraper.scrape_items ctx awsConfig configItems results
    = Panicked reason'.
Proof.
  intros Hin Hpanic. revert results.
  induction configItems as [|item rest IH]; intros results;
    [by apply elem_of_nil in Hin|].
  simpl. apply elem_of_cons in Hin as [<-|Hin].
  { rewrite Hpanic. by eexists. }
  destruct (aws.FetchCosts _ _ item) as [[costs [err|]]|]; simpl; eauto.
Qed.

Lemma scrape_configs_ready ctx awsConfig configItems rest results :
  ready ctx awsConfig configItems ->
  CostScraper.scrape_configs ctx (awsConfig :: rest) results
  = aws.and_then (CostScraper.scrape_items ctx awsConfig configItems results)
      (fun results => CostScraper.scrape_configs ctx rest results).
Proof.
  intros (conn & region & regions & session & accountID
          & Hconn & Hregion & Hsession & Hcaller & Hquery).
  simpl. rewrite Hconn, Hregion; simpl. rewrite Hsession, Hcaller; simpl.
  by rewrite Hquery.
Qed.

Lemma Scrape_ready ctx awsConfig configItems :
  ready ctx awsConfig configItems ->
  CostScraper.Scrape ctx (CostScraper.mkConfigScraper [awsConfig])
  = CostScraper.scrape_items ctx awsConfig configItems [].
Proof.
  intros Hready. unfold CostScraper.Scrape.
  cbn [CostScraper.AWSConfigs]. rewrite (scrape_configs_ready _ _ _ _ _ Hready).
  by destruct (CostScraper.scrape_items _ _ _ _).
Qed.

Lemma scrape_configs_scrapes ctx configs results :
  Forall (scrapes ctx) configs ->
  CostScraper.scrape_configs ctx configs.*1 results
  = Returned (results ++ (configs ≫= results_of ctx)).
Proof.
  intros Hall. revert results.
  induction Hall as [|[c items] configs [Hready Hreturns] _ IH];
    intros results.
  { simpl. by rewrite app_nil_r. }
  rewrite fmap_cons. cbn [fst]. simpl in Hready, Hreturns.
  rewrite (scrape_configs_ready _ _ _ _ _ Hready).
  rewrite (scrape_items_fetched _ _ _ _ Hreturns). cbn [aws.and_then].
  rewrite IH. by rewrite <-(assoc_L (++)).
Qed.

(** When for every configuration the session, the caller identity and
    the database query succeed and [FetchCosts] returns on every item,
    [Scrape] gives, configuration after configuration and item after item,
    one result for each item whose costs were fetched with a nil error, and
    nothing for an item whose fetch returned an error. *)
Theorem Scrape_one_result_per_fetched_item (ctx : aws.ScrapeContext)
    (configs : list (CostScraper.AWS * list models.ConfigItem)) :
  Forall (scrapes ctx) configs ->
  CostScraper.Scrape ctx (CostScraper.mkConfigScraper configs.*1)
  = Returned (configs ≫= results_of ctx).
Proof.
  intros Hall. unfold CostScraper.Scrape. cbn [CostScraper.AWSConfigs].
  by rewrite (scrape_configs_scrapes _ _ [] Hall).
Qed.

Lemma scrape_configs_failed_session ctx before awsConfig after conn region
    regions err results :
  Forall (scrapes ctx) before ->
  v1aws.Connection (CostScraper.Config awsConfig) = Some conn ->
  CostScraper.Region awsConfig = region :: regions ->
  CostScraper.NewSession ctx conn region = inr err ->
  CostScraper.scrape_configs ctx (before.*1 ++ awsConfig :: after) results
  = Returned (CostScraper.Errorf (results ++ (before ≫= results_of ctx)) err
                "failed to create AWS session").
Proof.
  intros Hall Hconn Hregion Hsession. revert results.
  induction Hall as [|[c items] configs [Hready Hreturns] _ IH];
    intros results.
  { simpl. rewrite Hconn, Hregion; simpl. by rewrite Hsession, app_nil_r. }
  rewrite fmap_cons, <-app_comm_cons. cbn [fst]. simpl in Hready, Hreturns.
  rewrite (scrape_configs_ready _ _ _ _ _ Hready).
  rewrite (scrape_items_fetched _ _ _ _ Hreturns). cbn [aws.and_then].
  rewrite IH. by rewrite <-(assoc_L (++)).
Qed.

(** A session that cannot be opened ends [Scrape]: the configurations
    after it are not visited, and what is returned is what [Errorf] makes
    of the error and the results of the configurations before it. *)
Theorem Scrape_stops_at_failed_session (ctx : aws.ScrapeContext)
    (before : list (CostScraper.AWS * list models.ConfigItem))
    (awsConfig : CostScraper.AWS) (after : list CostScraper.AWS)
    (conn : aws.AWSConnection) (region : string) (regions : list string)
    (err : error) :
  Forall (scrapes ctx) before ->
  v1aws.Connection (CostScraper.Config awsConfig) = Some conn ->
  CostScraper.Region awsConfig = region :: regions ->
  CostScraper.NewSession ctx conn region = inr err ->
  CostScraper.Scrape ctx
    (CostScraper.mkConfigScraper (before.*1 ++ awsConfig :: after))
  = Returned (CostScraper.Errorf (before ≫= results_of ctx) err
                "failed to create AWS session").
Proof.
  intros Hall Hconn Hregion Hsession. unfold CostScraper.Scrape.
  cbn [CostScraper.AWSConfigs].
  by rewrite (scrape_configs_failed_session _ _ _ _ _ _ _ _ []
                Hall Hconn Hregion Hsession).
Qed.

(** An item whose cost row cannot be scanned is not skipped: since
    [FetchCosts] hides that failure, [Scrape] reports the item with a cost
    of zero per minute and zero totals, as it would a resource that costs
    nothing. *)
Theorem Scrape_reports_zero_when_scan_fails (ctx : aws.ScrapeContext)
    (awsConfig : CostScraper.AWS) (configItems : list models.ConfigItem)
    (configItem : models.ConfigItem) (attrs : aws.productAttributes)
    (athenaConf : aws.AthenaConfig) (athenaDB : aws.DB)
    (written : aws.periodicCosts) (err : error) :
  ready ctx awsConfig configItems ->
  Forall (returns ctx awsConfig) configItems ->
  configItem ∈ configItems ->
  aws.getProductAttributes configItem = Returned (attrs, None) ->
  aws.getAWSAthenaConfig ctx (CostScraper.Config awsConfig)
  = Returned (inl athenaConf) ->
  aws.sql_Open aws.athena_DriverName (aws.Config_Stringify athenaConf)
  = inl athenaDB ->
  aws.Row_Scan
    (aws.DB_QueryRow athenaDB (aws.costQuery (CostScraper.Config awsConfig))
       (aws.queryArgs attrs)) aws.zero_costs
  = (written, Some err) ->
  exists results,
    CostScraper.Scrape ctx (CostScraper.mkConfigScraper [awsConfig])
    = Returned results
    /\ CostScraper.CostResult (models.ID configItem) 0 0 0 0 ∈ results.
Proof.
  intros Hready Hreturns Hin Hattrs Hconf Hopen Hscan.
  rewrite (Scrape_ready _ _ _ Hready).
  rewrite (scrape_items_fetched _ _ _ [] Hreturns). eexists. split; [done|].
  simpl. apply list_elem_of_omap. exists configItem. split; [done|].
  unfold fetched, aws.FetchCosts.
  rewrite Hattrs; simpl. rewrite Hconf; simpl. by rewrite Hopen, Hscan.
Qed.

(** An item on which [FetchCosts] panics (one with a nil [ExternalType],
    for one) is not skipped either: the panic ends [Scrape], and the
    results of the items before it are lost. *)
Theorem Scrape_panics_with_item (ctx : aws.ScrapeContext)
    (awsConfig : CostScraper.AWS) (configItems : list models.ConfigItem)
    (configItem : models.ConfigItem) :
  ready ctx awsConfig configItems ->
  configItem ∈ configItems ->
  models.ExternalType configItem = None ->
  exists reason,
    CostScraper.Scrape ctx (CostScraper.mkConfigScraper [awsConfig])
    = Panicked reason.
Proof.
  intros Hready Hin Hnil. rewrite (Scrape_ready _ _ _ Hready).
  eapply scrape_items_panics; [exact Hin|].
  unfold aws.FetchCosts, aws.getProductAttributes. by rewrite Hnil.
Qed.

End ScrapeProperties.

(** * The added properties on the small hosts *)

(** The environment [{"a": 2, "b": 3}] and the script [a]: one runtime,
    the two keys bound, the script run. *)
Lemma Template_script_binds_every_entry_witness :
  exists keys,
    keys ≡ₚ (map_to_list mini.ab).*1
    /\ NoDup keys
    /\ (Template (H := mini.host) tt (v1.mkTemplate "a" "" "")
          (mini.store_of mini.ab)).2
       = call_goja_New :: (call_Runtime_Set <$> keys)
         ++ [call_Runtime_RunString "a"].
Proof.
  apply (Template_script_binds_every_entry (H := mini.host) tt
           (v1.mkTemplate "a" "" "") (mini.store_of mini.ab));
    [exact mini_range_law | discriminate |].
  intros vm k v s0 Hk. simpl in Hk. apply elem_of_map_to_list in Hk.
  assert (map_to_list mini.ab = [("a", mini.VInt 2); ("b", mini.VInt 3)])
    as Hl by (vm_compute; reflexivity).
  rewrite Hl in Hk.
  repeat (apply elem_of_cons in Hk as [[= -> ->]|Hk]; [done|]).
  by apply elem_of_nil in Hk.
Defined.

(** A body that renders, and a body with an unclosed action. *)
Lemma Template_text_calls_in_order_witness :
  (exists data,
      (Template (H := mini.host) tt (v1.mkTemplate "" "Hello {{.name}}" "")
         (mini.store_of mini.ann)).2
      `prefix_of` [call_Template_Parse "Hello {{.name}}"; call_json_Marshal;
                   call_json_Unmarshal data; call_Template_Execute])
  /\ Template (H := mini.host) tt (v1.mkTemplate "" "Hello {{.name" "")
       (mini.store_of mini.ann)
     = (Returned ("", Some (errors_New "template: :1: unclosed action")),
        mini.store_of mini.ann, [call_Template_Parse "Hello {{.name"]).
Proof.
  split.
  - refine (proj1 (Template_text_calls_in_order (H := mini.host) tt
                     (v1.mkTemplate "" "Hello {{.name}}" "")
                     (mini.store_of mini.ann) _ _));
      [reflexivity | discriminate].
  - refine (proj2 (Template_text_calls_in_order (H := mini.host) tt
                     (v1.mkTemplate "" "Hello {{.name" "")
                     (mini.store_of mini.ann) _ _) _ _ _);
      [reflexivity | discriminate | vm_compute; reflexivity].
Defined.

(** A body of two lines whose first line names a field the data does not
    hold, on the strict host: the message holds the first line only, and
    the [Hello ] already written is dropped. *)
Lemma Template_execute_error_first_line_witness :
  mini_strict.Execute [mini.Text "Hello "; mini.Field "nam";
                       mini.Text (LF +:+ "bye")] mini.ann
    (mini.store_of mini.ann)
  = (("Hello ", Some (errors_New
        "template: :1: map has no entry for key nam")), mini.store_of mini.ann)
  /\ exists first rest,
      bytes_of_string ("Hello {{.nam}}" +:+ LF +:+ "bye") = first ++ rest
      /\ Forall (fun c => c ≠ 10%N) first
      /\ (rest = [] \/ head rest = Some 10%N)
      /\ (Template (H := mini_strict.host) tt
            (v1.mkTemplate "" ("Hello {{.nam}}" +:+ LF +:+ "bye") "")
            (mini.store_of mini.ann)).1.1
         = Returned ("", Some (fmt_Errorf
             ("error executing template " +:+ string_of_bytes first +:+ ": "
              +:+ "template: :1: map has no entry for key nam"))).
Proof.
  split; [reflexivity|].
  apply (Template_execute_error_first_line (H := mini_strict.host) tt
           (v1.mkTemplate "" ("Hello {{.nam}}" +:+ LF +:+ "bye") "")
           (mini.store_of mini.ann) (mini.store_of mini.ann)
           (mini.store_of mini.ann) (mini.store_of mini.ann)
           (mini.store_of mini.ann)
           [mini.Text "Hello "; mini.Field "nam"; mini.Text (LF +:+ "bye")]
           (mini.Marshal tt (mini.store_of mini.ann)).1.1 None mini.ann
           "Hello "
           (errors_New "template: :1: map has no entry for key nam"));
    first [discriminate | vm_compute; reflexivity].
Defined.

(** The buffer ["  Hello Ann  \n"]: two spaces, [Hello Ann], two spaces
    and a line feed. *)
Lemma Template_text_strips_ascii_spaces_witness :
  (Template (H := mini.host) tt
     (v1.mkTemplate "" ("  Hello {{.name}}  " +:+ LF) "")
     (mini.store_of mini.ann)).1.1
  = Returned ("Hello Ann", None).
Proof.
  apply (Template_text_strips_ascii_spaces (H := mini.host) tt
           (v1.mkTemplate "" ("  Hello {{.name}}  " +:+ LF) "")
           (mini.store_of mini.ann) (mini.store_of mini.ann)
           (mini.store_of mini.ann) (mini.store_of mini.ann)
           (mini.store_of mini.ann)
           [mini.Text "  Hello "; mini.Field "name"; mini.Text ("  " +:+ LF)]
           (mini.Marshal tt (mini.store_of mini.ann)).1.1 None mini.ann
           "  " "Hello Ann" ("  " +:+ LF));
    try first [discriminate | vm_compute; reflexivity].
  - by repeat constructor.
  - by repeat constructor.
  - right. split; eexists; (split; [reflexivity|by split]).
Defined.

(** The path [" lib.js \n"] loads the file [lib.js]. *)
Lemma LoadSharedLibrary_ignores_spaces_witness :
  library.LoadSharedLibrary (F := mini_files.files) tt
    (" " +:+ "lib.js" +:+ (" " +:+ LF)) (mini.store_of ∅)
  = library.LoadSharedLibrary (F := mini_files.files) tt "lib.js"
      (mini.store_of ∅)
  /\ library.LoadSharedLibrary (F := mini_files.files) tt "lib.js"
       (mini.store_of ∅)
     = (None, mini.store_of ∅).
Proof.
  split; [|reflexivity].
  apply (LoadSharedLibrary_ignores_spaces (F := mini_files.files) tt
           " " "lib.js" (" " +:+ LF) (mini.store_of ∅)).
  - by repeat constructor.
  - by repeat constructor.
  - right. split; eexists; (split; [reflexivity|by split]).
Defined.

(** A cluster whose configuration is not JSON. *)
Lemma getProductAttributes_error_only_for_cluster_witness :
  aws.getProductAttributes (C := mini_aws.cloud) (mini_scraper.cluster "{")
  = Returned ({| aws.ResourceID := ""; aws.ProductCode := "" |},
              Some (errors_New "invalid character in object"))
  /\ exists t body,
      models.ExternalType (mini_scraper.cluster "{") = Some t
      /\ String.eqb t mini_aws.AWSEC2Instance = false
      /\ String.eqb t mini_aws.AWSEKSCluster = true
      /\ models.Config (mini_scraper.cluster "{") = Some body
      /\ (mini_aws.Unmarshal body).2
         = Some (errors_New "invalid character in object")
      /\ {| aws.ResourceID := ""; aws.ProductCode := "" |}
         = {| aws.ResourceID := ""; aws.ProductCode := "" |}.
Proof.
  split; [reflexivity|].
  apply (getProductAttributes_error_only_for_cluster (C := mini_aws.cloud)
           (mini_scraper.cluster "{")).
  reflexivity.
Defined.

(** A cluster whose configuration is the empty object, and one whose
    [arn] is a number. *)
Lemma getProductAttributes_cluster_without_arn_panics_witness :
  aws.getProductAttributes (C := mini_aws.cloud) (mini_scraper.cluster "{}")
  = Panicked "interface conversion: interface {} is nil, not string"
  /\ aws.getProductAttributes (C := mini_aws.cloud)
       (mini_scraper.cluster ("{" +:+ mini.json_string "arn" +:+ ":5}"))
     = Panicked "interface conversion: interface {} is float64, not string".
Proof.
  split.
  - etransitivity.
    + apply (getProductAttributes_cluster_without_arn_panics
               (C := mini_aws.cloud) (mini_scraper.cluster "{}")
               mini_aws.AWSEKSCluster "{}" ∅); reflexivity.
    + reflexivity.
  - etransitivity.
    + apply (getProductAttributes_cluster_without_arn_panics
               (C := mini_aws.cloud)
               (mini_scraper.cluster ("{" +:+ mini.json_string "arn" +:+ ":5}"))
               mini_aws.AWSEKSCluster
               ("{" +:+ mini.json_string "arn" +:+ ":5}")
               {[ "arn" := mini.VInt 5 ]});
        first [reflexivity | vm_compute; reflexivity].
    + vm_compute. reflexivity.
Defined.

(** A Lambda function: the query runs for the empty resource id, finds no
    row, and the item is given a cost of zero. *)
Lemma FetchCosts_unknown_type_queries_empty_witness :
  aws.getProductAttributes (C := mini_aws.cloud) mini_scraper.lambda
  = Returned ({| aws.ResourceID := ""; aws.ProductCode := "" |}, None)
  /\ aws.FetchCosts (C := mini_aws.cloud) tt mini_aws.sample_config
       mini_scraper.lambda
     = Returned (aws.zero_costs, None).
Proof.
  exact (FetchCosts_unknown_type_queries_empty (C := mini_aws.cloud) tt
           mini_aws.sample_config mini_scraper.lambda "AWS::Lambda::Function"
           "s3://reports?region=eu-west-1&accessID=AKIA"
           {[ "i-0abc" := [Some 0.5; Some 12; Some 84; Some 360];
              "i-0def" := [Some 0.25; None; None; None] ]}%float
           eq_refl
           ltac:(repeat constructor) eq_refl eq_refl).
Defined.

(** The product code of an instance. *)
Lemma getProductAttributes_product_code_witness :
  aws.ProductCode {| aws.ResourceID := "i-0abc"; aws.ProductCode := "AmazonEC2" |}
  ∈ "" :: product_codes.
Proof.
  apply (getProductAttributes_product_code (C := mini_aws.cloud)
           (mini_aws.instance "i-0abc") _ None).
  reflexivity.
Defined.

(** A cluster whose configuration is not JSON: an error of the first step
    and zero costs; an instance with costs: what [Scan] wrote. *)
Lemma FetchCosts_returns_witness :
  (aws.zero_costs = aws.zero_costs
   /\ ((exists attrs,
          aws.getProductAttributes (C := mini_aws.cloud)
            (mini_scraper.cluster "{")
          = Returned (attrs, Some (errors_New "invalid character in object")))
       \/ aws.getAWSAthenaConfig (C := mini_aws.cloud) tt mini_aws.sample_config
          = Returned (inr (errors_New "invalid character in object"))
       \/ exists athenaConf,
           aws.getAWSAthenaConfig (C := mini_aws.cloud) tt
             mini_aws.sample_config = Returned (inl athenaConf)
           /\ mini_aws.Open "awsathena" athenaConf
              = inr (errors_New "invalid character in object")))
  /\ aws.FetchCosts (C := mini_aws.cloud) tt mini_aws.sample_config
       (mini_aws.instance "i-0abc")
     = Returned ({| aws.Hourly := 0.5; aws.Daily := 12; aws.Weekly := 84;
                    aws.Monthly := 360 |}, None).
Proof.
  split; [|reflexivity].
  exact (FetchCosts_returns (C := mini_aws.cloud) tt mini_aws.sample_config
           (mini_scraper.cluster "{") aws.zero_costs
           (Some (errors_New "invalid character in object")) eq_refl).
Defined.

Lemma mini_ready_eu :
  ready (S := mini_scraper.scraping) tt (mini_scraper.in_region "eu-west-1")
    [mini_scraper.ec2 "a" "i-0abc"; mini_scraper.ec2 "d" "i-0def";
     mini_scraper.ec2 "x" "i-0xyz"].
Proof. by eexists _, _, _, _, _. Qed.

Lemma mini_ready_us :
  ready (S := mini_scraper.scraping) tt (mini_scraper.in_region "us-east-1")
    [mini_scraper.ec2 "a" "i-0abc"; mini_scraper.untyped].
Proof. by eexists _, _, _, _, _. Qed.

Lemma mini_returns_eu :
  Forall (returns (C := mini_aws.cloud) tt
            (mini_scraper.in_region "eu-west-1"))
    [mini_scraper.ec2 "a" "i-0abc"; mini_scraper.ec2 "d" "i-0def";
     mini_scraper.ec2 "x" "i-0xyz"].
Proof. repeat constructor; by eexists. Qed.

Lemma mini_scrapes_eu :
  scrapes (S := mini_scraper.scraping) tt
    (mini_scraper.in_region "eu-west-1",
     [mini_scraper.ec2 "a" "i-0abc"; mini_scraper.ec2 "d" "i-0def";
      mini_scraper.ec2 "x" "i-0xyz"]).
Proof. split; [exact mini_ready_eu | exact mini_returns_eu]. Qed.

(** The same configuration twice, with three instances: one with costs,
    one whose row cannot be scanned, one the database has no row for. All
    three are reported each time, the last two with zero costs. *)
Lemma Scrape_one_result_per_fetched_item_witness :
  CostScraper.Scrape (S := mini_scraper.scraping) tt
    (CostScraper.mkConfigScraper
       [mini_scraper.in_region "eu-west-1"; mini_scraper.in_region "eu-west-1"])
  = Returned
      [mini_scraper.mkResult "a" (0.5 / 60) 12 84 360 None;
       mini_scraper.mkResult "d" 0 0 0 0 None;
       mini_scraper.mkResult "x" 0 0 0 0 None;
       mini_scraper.mkResult "a" (0.5 / 60) 12 84 360 None;
       mini_scraper.mkResult "d" 0 0 0 0 None;
       mini_scraper.mkResult "x" 0 0 0 0 None]%float.
Proof.
  exact (Scrape_one_result_per_fetched_item (S := mini_scraper.scraping) tt
           [(mini_scraper.in_region "eu-west-1", _);
            (mini_scraper.in_region "eu-west-1", _)]
           (Forall_cons_2 _ _ _ mini_scrapes_eu
              (Forall_cons_2 _ _ _ mini_scrapes_eu (Forall_nil_2 _)))).
Defined.

(** A configuration with an empty region name between two good ones: the
    results of the first, then the error; the third is not visited. *)
Lemma Scrape_stops_at_failed_session_witness :
  CostScraper.Scrape (S := mini_scraper.scraping) tt
    (CostScraper.mkConfigScraper
       [mini_scraper.in_region "eu-west-1"; mini_scraper.in_region "";
        mini_scraper.in_region "eu-west-1"])
  = Returned
      [mini_scraper.mkResult "a" (0.5 / 60) 12 84 360 None;
       mini_scraper.mkResult "d" 0 0 0 0 None;
       mini_scraper.mkResult "x" 0 0 0 0 None;
       mini_scraper.mkResult "" 0 0 0 0
         (Some (errors_New "missing region"))]%float.
Proof.
  exact (Scrape_stops_at_failed_session (S := mini_scraper.scraping) tt
           [(mini_scraper.in_region "eu-west-1", _)]
           (mini_scraper.in_region "") [mini_scraper.in_region "eu-west-1"]
           ("AKIA", "secret") "" [] (errors_New "missing region")
           (Forall_cons_2 _ _ _ mini_scrapes_eu (Forall_nil_2 _))
           eq_refl eq_refl eq_refl).
Defined.

(** The instance [i-0def], whose row holds NULL after the hourly cost. *)
Lemma Scrape_reports_zero_when_scan_fails_witness :
  exists results,
    CostScraper.Scrape (S := mini_scraper.scraping) tt
      (CostScraper.mkConfigScraper [mini_scraper.in_region "eu-west-1"])
    = Returned results
    /\ mini_scraper.mkResult "d" 0 0 0 0 None ∈ results.
Proof.
  apply (Scrape_reports_zero_when_scan_fails (S := mini_scraper.scraping) tt
           (mini_scraper.in_region "eu-west-1") _
           (mini_scraper.ec2 "d" "i-0def")
           {| aws.ResourceID := "i-0def"; aws.ProductCode := "AmazonEC2" |}
           "s3://reports?region=eu-west-1&accessID=AKIA"
           {[ "i-0abc" := [Some 0.5; Some 12; Some 84; Some 360];
              "i-0def" := [Some 0.25; None; None; None] ]}%float
           {| aws.Hourly := 0.25; aws.Daily := 0; aws.Weekly := 0;
              aws.Monthly := 0 |} mini_aws.null_error
           mini_ready_eu mini_returns_eu);
    [set_solver | vm_compute; reflexivity ..].
Defined.

(** The account of [us-east-1] holds an item with no resource type after
    an instance with costs: [Scrape] panics. *)
Lemma Scrape_panics_with_item_witness :
  exists reason,
    CostScraper.Scrape (S := mini_scraper.scraping) tt
      (CostScraper.mkConfigScraper [mini_scraper.in_region "us-east-1"])
    = Panicked reason.
Proof.
  apply (Scrape_panics_with_item (S := mini_scraper.scraping) tt
           (mini_scraper.in_region "us-east-1") _ mini_scraper.untyped
           mini_ready_us); [set_solver | reflexivity].
Defined.

